(** * book-organizer: the document ingestion and reconciliation pipeline

    A shallow embedding of the Go packages [documents], [books], [database]
    and [common] of holmes89/book-organizer, together with the few functions
    of the Go standard library and of third-party packages that the pipeline
    calls ([strings.ReplaceAll], [filepath.Ext], [filepath.Dir], [io.ReadFull],
    [uuid.New]).

    Go strings are byte sequences: they are modelled by [string] (a list of
    8-bit characters).  Stateful code is modelled by explicit state passing
    over a [World] that holds the relational store, the bucket, the
    process-wide sources of randomness and time, and a log of the mutating
    collaborator calls. *)

From Stdlib Require Import ZArith List String Ascii Bool Arith Lia.
From Stdlib Require Import Strings.Byte.
From Stdlib Require Import DecimalString.
Import ListNotations.

Local Open Scope string_scope.
Local Open Scope list_scope.

(** ** Go errors *)

(** [errors.New] and [errors.Wrap] of github.com/pkg/errors: an error is a
    message, possibly wrapped around a cause. *)
Inductive error : Type :=
| errors_New (msg : string)
| errors_Wrap (cause : error) (msg : string).

(** ** Package strings *)

Module strings.

(** [strings.ReplaceAll(s, old, new)]: every non-overlapping occurrence of
    [old], scanning from the left, is replaced by [new].  [skip] counts the
    bytes of the occurrence being dropped.  With an empty [old], Go inserts
    [new] before every byte and at the end. *)
Fixpoint replace_from (old new s : string) (skip : nat) : string :=
  match s with
  | EmptyString =>
      match old with EmptyString => new | _ => EmptyString end
  | String c rest =>
      match skip with
      | S k => replace_from old new rest k
      | O =>
          match old with
          | EmptyString => new ++ String c (replace_from old new rest 0)
          | String _ _ =>
              if prefix old s
              then new ++ replace_from old new rest (length old - 1)
              else String c (replace_from old new rest 0)
          end
      end
  end.

Definition ReplaceAll (s old new : string) : string :=
  replace_from old new s 0.

(** [strings.Split(s, sep)] for a non-empty [sep]: the substrings between
    the non-overlapping occurrences of [sep].  [skip] counts the bytes of
    the separator being dropped. *)
Fixpoint split_from (sep s : string) (skip : nat) : list string :=
  match s with
  | EmptyString => [EmptyString]
  | String c rest =>
      match skip with
      | S k => split_from sep rest k
      | O =>
          if prefix sep s
          then EmptyString :: split_from sep rest (length sep - 1)
          else
            match split_from sep rest 0 with
            | e :: es => String c e :: es
            | [] => [String c EmptyString]
            end
      end
  end.

(** With an empty [sep], Go splits after each character. *)
Fixpoint explode (s : string) : list string :=
  match s with
  | EmptyString => []
  | String c rest => String c EmptyString :: explode rest
  end.

Definition Split (s sep : string) : list string :=
  match sep with
  | EmptyString => explode s
  | String _ _ => split_from sep s 0
  end.

End strings.

(** ** Package path/filepath (Unix: the separator is '/', no volume names) *)

Module filepath.

Definition Separator : ascii := "/"%char.

Definition IsPathSeparator (c : ascii) : bool := Ascii.eqb c Separator.

(** The backward loop of [filepath.Ext]: [ext_scan s] is [None] when [s]
    holds neither a dot nor a separator, and otherwise what the loop
    returns when it stops inside [s]: the suffix from the last dot, or the
    empty string when a separator comes after every dot. *)
Fixpoint ext_scan (s : string) : option string :=
  match s with
  | EmptyString => None
  | String c rest =>
      match ext_scan rest with
      | Some r => Some r
      | None =>
          if IsPathSeparator c then Some EmptyString
          else if Ascii.eqb c "."%char then Some s
          else None
      end
  end.

(** [filepath.Ext(path)]: the suffix beginning at the final dot in the
    final element of [path]; empty if there is no dot. *)
Definition Ext (path : string) : string :=
  match ext_scan path with
  | Some r => r
  | None => EmptyString
  end.

Fixpoint has_separator (s : string) : bool :=
  match s with
  | EmptyString => false
  | String c rest => IsPathSeparator c || has_separator rest
  end.

(** [path[:i+1]] where [i] is the index of the last separator (the empty
    string when there is none). *)
Fixpoint upto_last_separator (s : string) : string :=
  match s with
  | EmptyString => EmptyString
  | String c rest =>
      if has_separator rest then String c (upto_last_separator rest)
      else if IsPathSeparator c then String c EmptyString
      else EmptyString
  end.

(** The elements of a path: the maximal runs between separators. *)
Fixpoint elements (s : string) : list string :=
  match s with
  | EmptyString => [EmptyString]
  | String c rest =>
      if IsPathSeparator c then EmptyString :: elements rest
      else
        match elements rest with
        | e :: es => String c e :: es
        | [] => [String c EmptyString]
        end
  end.

(** One step of the loop of [filepath.Clean] on a whole element; [out] is
    the output buffer as a stack of elements, most recent first.  An empty
    element or "." is dropped; ".." removes the last real element when
    there is one, is dropped on a rooted path, and is kept otherwise. *)
Definition clean_step (rooted : bool) (out : list string) (e : string)
  : list string :=
  if String.eqb e "" then out
  else if String.eqb e "." then out
  else if String.eqb e ".." then
    match out with
    | top :: below =>
        if String.eqb top ".." then e :: out else below
    | [] => if rooted then out else [e]
    end
  else e :: out.

Fixpoint join (es : list string) : string :=
  match es with
  | [] => EmptyString
  | [e] => e
  | e :: rest => e ++ String Separator (join rest)
  end.

(** [filepath.Clean(path)]: the shortest path name equivalent to [path] by
    purely lexical processing. *)
Definition Clean (path : string) : string :=
  let rooted :=
    match path with
    | String c _ => IsPathSeparator c
    | EmptyString => false
    end in
  let out := fold_left (clean_step rooted) (elements path) [] in
  let body := join (rev out) in
  if rooted then String Separator body
  else if String.eqb body "" then "." else body.

(** [filepath.Dir(path)]: all but the last element of [path], cleaned. *)
Definition Dir (path : string) : string :=
  Clean (upto_last_separator path).

End filepath.

(** ** Package github.com/google/uuid *)

Module uuid.

(** A UUID is 16 bytes, each a [Z] read modulo 256. *)
Definition UUID := list Z.

Definition at_ (u : UUID) (i : nat) : Z := nth i u 0%Z mod 256.

Definition hextable : list ascii :=
  list_ascii_of_string "0123456789abcdef".

Definition hexdigit (n : Z) : ascii := nth (Z.to_nat n) hextable "0"%char.

(** [encodeHex]: two lower-case hexadecimal digits per byte, for the bytes
    at the positions [from, from + count). *)
Fixpoint encode (u : UUID) (from count : nat) : string :=
  match count with
  | O => EmptyString
  | S k =>
      String (hexdigit (at_ u from / 16))
        (String (hexdigit (at_ u from mod 16)) (encode u (S from) k))
  end.

(** [UUID.String()]: the form xxxxxxxx-xxxx-xxxx-xxxx-xxxxxxxxxxxx. *)
Definition String_ (u : UUID) : string :=
  encode u 0 4 ++ "-" ++ encode u 4 2 ++ "-" ++ encode u 6 2 ++ "-"
    ++ encode u 8 2 ++ "-" ++ encode u 10 6.

Fixpoint set_nth (i : nat) (v : Z) (u : UUID) : UUID :=
  match i, u with
  | O, _ :: rest => v :: rest
  | O, [] => [v]
  | S k, b :: rest => b :: set_nth k v rest
  | S k, [] => 0%Z :: set_nth k v []
  end.

(** [uuid.NewRandom]: 16 random bytes with the version (4) and the variant
    (10) bits set:
    [uuid[6] = (uuid[6] & 0x0f) | 0x40; uuid[8] = (uuid[8] & 0x3f) | 0x80]. *)
Definition NewRandom (random : list Z) : UUID :=
  let u := set_nth 6 (Z.lor (Z.land (at_ random 6) 0x0f) 0x40) random in
  set_nth 8 (Z.lor (Z.land (at_ random 8) 0x3f) 0x80) u.

End uuid.

(** ** Package time: an instant is a number of nanoseconds *)

Definition Time := Z.

(** The zero value of [time.Time]. *)
Definition zeroTime : Time := 0%Z.

(** ** Package io and the uploaded file *)

(** A [multipart.File]: the bytes of the upload and the read cursor. *)
Record File : Type := mkFile {
  content : list Z;
  offset : nat
}.

Definition io_EOF : error := errors_New "EOF".
Definition io_ErrUnexpectedEOF : error := errors_New "unexpected EOF".

(** The bytes between the cursor and the end of the file. *)
Definition remaining (f : File) : list Z := skipn (offset f) (content f).

(** [io.ReadFull(file, buf)] with [len(buf) = n]: reads exactly [n] bytes.
    Returns the buffer, the number of bytes copied and the error: [io.EOF]
    when no byte was read, [io.ErrUnexpectedEOF] when some but not all were.
    The cursor moves past the bytes read. *)
Definition io_ReadFull (f : File) (n : nat)
  : (list Z * nat * option error) * File :=
  let got := firstn n (remaining f) in
  let bytesRead := List.length got in
  let buf := (got ++ repeat 0%Z (n - bytesRead))%list in
  let err :=
    if Nat.eqb bytesRead n then None
    else if Nat.eqb bytesRead 0 then Some io_EOF
    else Some io_ErrUnexpectedEOF in
  (buf, bytesRead, err, mkFile (content f) (offset f + bytesRead)).

(** [file.Seek(0, io.SeekStart)]. *)
Definition Seek_start (f : File) : File := mkFile (content f) 0.

(** [io.Copy(w, file)]: everything from the cursor to the end. *)
Definition io_Copy (f : File) : list Z * File :=
  (remaining f, mkFile (content f) (offset f + List.length (remaining f))).

(** ** Package github.com/h2non/filetype *)

Module filetype.

(** [types.Type]: a MIME value and an extension. *)
Record Type_ : Type := NewType {
  Extension : string;
  MIME_Value : string
}.

Definition Type_eqb (a b : Type_) : bool :=
  String.eqb (Extension a) (Extension b)
  && String.eqb (MIME_Value a) (MIME_Value b).

Definition Unknown : Type_ := NewType "unknown" "".
Definition TypeEpub : Type_ := NewType "epub" "application/epub+zip".
Definition TypePdf : Type_ := NewType "pdf" "application/pdf".

Definition ErrEmptyBuffer : error := errors_New "Empty buffer".

Fixpoint bytes_eqb (a b : list Z) : bool :=
  match a, b with
  | [], [] => true
  | x :: a', y :: b' => Z.eqb x y && bytes_eqb a' b'
  | _, _ => false
  end.

(** [matchers.Pdf]: the buffer starts with 25 50 44 46 ("%PDF"). *)
Definition Pdf (buf : list Z) : bool :=
  bytes_eqb (firstn 4 buf) [0x25; 0x50; 0x44; 0x46]%Z.

(** "mimetypeapplication/epub+zip", the 28 bytes at offset 30 of an EPUB
    container. *)
Definition epub_mimetype : list Z :=
  [0x6D; 0x69; 0x6D; 0x65; 0x74; 0x79; 0x70; 0x65; 0x61; 0x70; 0x70; 0x6C;
   0x69; 0x63; 0x61; 0x74; 0x69; 0x6F; 0x6E; 0x2F; 0x65; 0x70; 0x75; 0x62;
   0x2B; 0x7A; 0x69; 0x70]%Z.

(** [matchers.Epub]: a ZIP local file header (50 4B 03 04) whose first
    entry, at offset 30, is the mimetype of an EPUB. *)
Definition Epub (buf : list Z) : bool :=
  bytes_eqb (firstn 4 buf) [0x50; 0x4B; 0x03; 0x04]%Z
  && bytes_eqb (firstn 28 (skipn 30 buf)) epub_mimetype.

(** A classifier in the shape of [filetype.Match], restricted to the two
    signature tables above: an empty buffer is an error, a buffer with no
    known signature is [Unknown]. *)
Definition Match_signatures (buf : list Z) : Type_ * option error :=
  match buf with
  | [] => (Unknown, Some ErrEmptyBuffer)
  | _ =>
      if Pdf buf then (TypePdf, None)
      else if Epub buf then (TypeEpub, None)
      else (Unknown, None)
  end.

End filetype.

(** ** Package documents: the data model and the file classifier *)

Module documents.

Definition ErrInvalidFileType : error := errors_New "invalid file type".

Record Document : Type := mkDocument {
  ID : string;
  DisplayName : string;
  Name : string;
  Path : string;
  Type_ : string;
  Description : string;
  Tags : list string;
  Created : Time;
  Updated : option Time
}.

(** The zero value [Document{}]. *)
Definition zeroDocument : Document :=
  mkDocument "" "" "" "" "" "" [] zeroTime None.

Section Classifier.

(** [filetype.Match] of the external package github.com/h2non/filetype:
    the kind of a buffer by its magic numbers, or an error. *)
Variable Match : list Z -> filetype.Type_ * option error.

(** [isSupported]: the verdict and the file as the call leaves it. *)
Definition isSupported (file : File) : bool * File :=
  let '(head, bytesRead, err, file) := io_ReadFull file 261 in
  match err with
  | Some _ => (false, file)
  | None =>
      let file := Seek_start file in
      match Match head with
      | (_, Some _) => (false, file)
      | (kind, None) =>
          if negb (filetype.Type_eqb kind filetype.TypeEpub)
             && negb (filetype.Type_eqb kind filetype.TypePdf)
          then (false, file)
          else (true, file)
      end
  end.

End Classifier.

End documents.

Import documents.

(** ** The state of the process and of its collaborators *)

(** A row of the table [documents]; its primary key is [col_id] (the queries
    group by it while selecting the other columns). *)
Record Row : Type := mkRow {
  col_id : string;
  col_description : string;
  col_display_name : string;
  col_name : string;
  col_type : string;
  col_path : string;
  col_created : Time;
  col_updated : option Time
}.

(** The database behind [conn *sql.DB]: the two tables the queries read, the
    error with which every statement fails while the connection is broken,
    and the server's clock (the default of the column [created]). *)
Record sql_DB : Type := mkDB {
  documents_rows : list Row;
  tagged_resources : list (string * string);
  db_fault : option error;
  db_now : Time
}.

(** An object of the bucket as [blob.ListObject] shows it, with its bytes. *)
Record Object : Type := mkObject {
  Key : string;
  IsDir : bool;
  Body : list Z
}.

(** The bucket behind [*blob.Bucket]: the objects in the order the store
    enumerates them, the error with which every call fails while the store
    is unreachable, and the signed URL the store issues for a key. *)
Record blob_Bucket : Type := mkBucket {
  objects : list Object;
  bucket_fault : option error;
  signer : string -> string
}.

(** The journal of the calls that write to a collaborator, and of the count
    that [UpsertStream] logs. *)
Inductive Entry : Type :=
| Storage_Save (fileName : string)
| Repo_Insert (doc : Document)
| Repo_UpdateDocument (doc : Document)
| Repo_Delete (id : string)
| Logged_documents_added (count : nat).

(** [rander] is the n-th block of 16 bytes of the random source that
    [uuid.New] reads, [clock] the n-th reading of [time.Now]. *)
Record World : Type := mkWorld {
  db : sql_DB;
  bucket : blob_Bucket;
  rander : nat -> list Z;
  drawn : nat;
  clock : nat -> Time;
  ticks : nat;
  journal : list Entry
}.

(** How a call ends: it returns, or the goroutine panics. *)
Inductive Outcome (A : Type) : Type :=
| Returned (a : A)
| Panicked (msg : string).
Arguments Returned {A} a.
Arguments Panicked {A} msg.

(** *** State passing *)

Definition M (A : Type) : Type := World -> A * World.

Definition ret {A : Type} (a : A) : M A := fun w => (a, w).

Definition bind {A B : Type} (m : M A) (k : A -> M B) : M B :=
  fun w => let (a, w') := m w in k a w'.

Declare Scope go_scope.
Delimit Scope go_scope with go.
Notation "x <- m ;; k" := (bind m (fun x => k))
  (at level 61, m at next level, right associativity) : go_scope.
Notation "' pat <- m ;; k" := (bind m (fun x => let pat := x in k))
  (at level 61, pat pattern, m at next level, right associativity) : go_scope.
Local Open Scope go_scope.

Definition get_db : M sql_DB := fun w => (db w, w).

Definition put_db (d : sql_DB) : M unit := fun w =>
  (tt, mkWorld d (bucket w) (rander w) (drawn w) (clock w) (ticks w) (journal w)).

Definition get_bucket : M blob_Bucket := fun w => (bucket w, w).

Definition put_bucket (b : blob_Bucket) : M unit := fun w =>
  (tt, mkWorld (db w) b (rander w) (drawn w) (clock w) (ticks w) (journal w)).

Definition record (e : Entry) : M unit := fun w =>
  (tt, mkWorld (db w) (bucket w) (rander w) (drawn w) (clock w) (ticks w)
         (journal w ++ [e])).

(** [uuid.New()]. *)
Definition uuid_New : M uuid.UUID := fun w =>
  (uuid.NewRandom (rander w (drawn w)),
   mkWorld (db w) (bucket w) (rander w) (S (drawn w)) (clock w) (ticks w)
     (journal w)).

(** [time.Now()]. *)
Definition time_Now : M Time := fun w =>
  (clock w (ticks w),
   mkWorld (db w) (bucket w) (rander w) (drawn w) (clock w) (S (ticks w))
     (journal w)).

(** Field assignments on a [Document]. *)
Definition set_ID (v : string) (d : Document) : Document :=
  mkDocument v (DisplayName d) (Name d) (Path d) (Type_ d) (Description d)
    (Tags d) (Created d) (Updated d).
Definition set_DisplayName (v : string) (d : Document) : Document :=
  mkDocument (ID d) v (Name d) (Path d) (Type_ d) (Description d)
    (Tags d) (Created d) (Updated d).
Definition set_Path (v : string) (d : Document) : Document :=
  mkDocument (ID d) (DisplayName d) (Name d) v (Type_ d) (Description d)
    (Tags d) (Created d) (Updated d).
Definition set_Type (v : string) (d : Document) : Document :=
  mkDocument (ID d) (DisplayName d) (Name d) (Path d) v (Description d)
    (Tags d) (Created d) (Updated d).
Definition set_Description (v : string) (d : Document) : Document :=
  mkDocument (ID d) (DisplayName d) (Name d) (Path d) (Type_ d) v
    (Tags d) (Created d) (Updated d).
Definition set_Tags (v : list string) (d : Document) : Document :=
  mkDocument (ID d) (DisplayName d) (Name d) (Path d) (Type_ d) (Description d)
    v (Created d) (Updated d).
Definition set_Created (v : Time) (d : Document) : Document :=
  mkDocument (ID d) (DisplayName d) (Name d) (Path d) (Type_ d) (Description d)
    (Tags d) v (Updated d).
Definition set_Updated (v : option Time) (d : Document) : Document :=
  mkDocument (ID d) (DisplayName d) (Name d) (Path d) (Type_ d) (Description d)
    (Tags d) (Created d) v.

(** ** Package common: the bucket storage *)

Module common.

(** The bucket after an object was written under [key]. *)
Definition write (b : blob_Bucket) (key : string) (body : list Z)
  : blob_Bucket :=
  mkBucket
    (filter (fun o => negb (String.eqb (Key o) key)) (objects b)
       ++ [mkObject key false body])
    (bucket_fault b) (signer b).

(** [BucketStorage.Save]: the path, the error and the reader as the
    copy leaves it. *)
Definition Save (fileName : string) (reader : File)
  : M (string * option error * File) :=
  _ <- record (Storage_Save fileName) ;;
  b <- get_bucket ;;
  match bucket_fault b with
  | Some err =>
      ret ("", Some (errors_Wrap err "unable to creat upload writer"), reader)
  | None =>
      let (body, reader) := io_Copy reader in
      _ <- put_bucket (write b fileName body) ;;
      ret (fileName, None, reader)
  end.

(** [BucketStorage.Get]: the signed URL of the path. *)
Definition Get (path : string) : M (string * option error) :=
  b <- get_bucket ;;
  match bucket_fault b with
  | Some err => ret ("", Some err)
  | None => ret (signer b path, None)
  end.

(** [BucketStorage.List]: what the channel delivers before it is
    closed, the keys of the objects that are not directories; nothing when
    the iterator fails. *)
Definition List_ : M (list string) :=
  b <- get_bucket ;;
  match bucket_fault b with
  | Some _ => ret []
  | None => ret (map Key (filter (fun o => negb (IsDir o)) (objects b)))
  end.

End common.

(** ** Package database: the repository over Postgres *)

Module database.

Definition sql_ErrNoRows : error := errors_New "sql: no rows in result set".

(** [QueryRow()] followed by [row.Scan]: the row selected by the
    identifier, or the error that [Scan] reports (the fault of the
    connection, or [sql.ErrNoRows]). *)
Definition query_row_by_id (d : sql_DB) (id : string) : error + Row :=
  match db_fault d with
  | Some err => inl err
  | None =>
      match find (fun r => String.eqb (col_id r) id) (documents_rows d) with
      | Some r => inr r
      | None => inl sql_ErrNoRows
      end
  end.

(** [COALESCE(string_agg(tagged_resources.id, ','), '')] over the rows of
    the left join for one document. *)
Definition tag_list (d : sql_DB) (resource_id : string) : string :=
  String.concat ","
    (map fst
       (filter (fun t => String.eqb (snd t) resource_id)
          (tagged_resources d))).

(** [FindByID]: an error of [row.Scan] is logged at warning level and the
    function goes on with the document as it is. *)
Definition FindByID (id : string) : M (option Document * option error) :=
  d <- get_db ;;
  let doc := set_Tags [] zeroDocument in
  match query_row_by_id d id with
  | inl _ => ret (Some doc, None)
  | inr r =>
      let doc :=
        mkDocument (col_id r) (col_display_name r) (col_name r) (col_path r)
          (col_type r) (col_description r) [] (col_created r)
          (col_updated r) in
      let tagList := tag_list d (col_id r) in
      let doc :=
        if negb (String.eqb tagList "")
        then set_Tags (Tags doc ++ strings.Split tagList ",") doc
        else doc in
      ret (Some doc, None)
  end.

(** The row after [UPDATE documents SET description, display_name, type,
    updated]. *)
Definition update_row (doc : Document) (now : Time) (r : Row) : Row :=
  mkRow (col_id r) (Description doc) (DisplayName doc) (col_name r)
    (Type_ doc) (col_path r) (col_created r) (Some now).

Definition UpdateDocument (doc : Document) : M (Document * option error) :=
  now <- time_Now ;;
  _ <- record (Repo_UpdateDocument doc) ;;
  d <- get_db ;;
  match db_fault d with
  | Some _ => ret (zeroDocument, Some (errors_New "unable to update doc"))
  | None =>
      _ <- put_db
             (mkDB
                (map (fun r =>
                        if String.eqb (col_id r) (ID doc)
                        then update_row doc now r else r)
                   (documents_rows d))
                (tagged_resources d) (db_fault d) (db_now d)) ;;
      ret (doc, None)
  end.

(** [existsByPath]: [count] stays 0 when [row.Scan] fails, and the error
    returned is always nil. *)
Definition existsByPath (path : string) : M (bool * option error) :=
  d <- get_db ;;
  let count :=
    match db_fault d with
    | Some _ => 0
    | None =>
        List.length
          (filter (fun r => String.eqb (col_path r) path)
             (documents_rows d))
    end in
  ret (Nat.ltb 0 count, None).

(** The row that [INSERT INTO documents (id, description, display_name,
    name, type, path)] stores: the other columns take their defaults. *)
Definition inserted_row (doc : Document) (d : sql_DB) : Row :=
  mkRow (ID doc) (Description doc) (DisplayName doc) (Name doc) (Type_ doc)
    (Path doc) (db_now d) None.

(** [Insert]: the statement fails on a broken connection and on an
    identifier that is already a key of the table. *)
Definition Insert (doc : Document) : M (option error) :=
  _ <- record (Repo_Insert doc) ;;
  d <- get_db ;;
  match db_fault d with
  | Some _ => ret (Some (errors_New "unable to insert doc metadata"))
  | None =>
      if existsb (fun r => String.eqb (col_id r) (ID doc)) (documents_rows d)
      then ret (Some (errors_New "unable to insert doc metadata"))
      else
        _ <- put_db
               (mkDB (documents_rows d ++ [inserted_row doc d])
                  (tagged_resources d) (db_fault d) (db_now d)) ;;
        ret None
  end.

(** The loop [for doc := range input] of [UpsertStream], with its counter. *)
Fixpoint upsert_loop (input : list Document) (count : nat)
  : M (nat * option error) :=
  match input with
  | [] => ret (count, None)
  | doc :: rest =>
      '(exists_, _) <- existsByPath (Path doc) ;;
      if (exists_ : bool) then upsert_loop rest count
      else
        err <- Insert doc ;;
        match err with
        | Some _ => ret (count, Some (errors_New "unable to upsert document"))
        | None => upsert_loop rest (S count)
        end
  end.

(** [UpsertStream] on a channel that delivers [input] and is then closed. *)
Definition UpsertStream (input : list Document) : M (option error) :=
  '(count, err) <- upsert_loop input 0 ;;
  match err with
  | Some e => ret (Some e)
  | None => _ <- record (Logged_documents_added count) ;; ret None
  end.

Definition Delete (id : string) : M (option error) :=
  _ <- record (Repo_Delete id) ;;
  d <- get_db ;;
  match db_fault d with
  | Some _ => ret (Some (errors_New "unable to delete"))
  | None =>
      _ <- put_db
             (mkDB
                (filter (fun r => negb (String.eqb (col_id r) id))
                   (documents_rows d))
                (tagged_resources d) (db_fault d) (db_now d)) ;;
      ret None
  end.

End database.

(** ** Package documents: the document service *)

Module documentService.

(** The body of the producer goroutine of [Scan] for one key: the key is
    skipped, or a document is sent, or indexing the derived name panics. *)
Inductive Step : Type :=
| Skip
| Send (name : string)
| IndexOutOfRange.

Definition derive (path : string) : Step :=
  let ext := filepath.Ext path in
  if negb (String.eqb ext ".pdf") then Skip
  else
    let name := strings.ReplaceAll path ext "" in
    let name := strings.ReplaceAll name (filepath.Dir path) "" in
    match name with
    | EmptyString => IndexOutOfRange
    | String c tail =>
        if Ascii.eqb c "/"%char then Send tail else Send name
    end.

(** The producer over the keys the listing delivers: the documents it
    sends, and the panic that ends it if one occurs. *)
Fixpoint produce (fileNameStream : list string)
  : M (list Document * option string) :=
  match fileNameStream with
  | [] => ret ([], None)
  | path :: rest =>
      match derive path with
      | Skip => produce rest
      | IndexOutOfRange =>
          ret ([], Some "runtime error: index out of range [0] with length 0")
      | Send name =>
          u <- uuid_New ;;
          now <- time_Now ;;
          let doc :=
            mkDocument (uuid.String_ u) name name path "book" "" [] now None in
          '(docs, panic) <- produce rest ;;
          ret (doc :: docs, panic)
      end
  end.

(** [Scan].  The producer and the consumer are run one after the other:
    the consumer handles every document it receives before the producer
    goes on.  When the consumer returns an error the producer stays blocked
    on its next send; when the producer panics after the consumer took
    every document, the process dies. *)
Definition Scan : M (Outcome (option error)) :=
  fileNameStream <- common.List_ ;;
  '(docStream, panic) <- produce fileNameStream ;;
  match panic with
  | None =>
      err <- database.UpsertStream docStream ;;
      ret (Returned err)
  | Some msg =>
      '(_, err) <- database.upsert_loop docStream 0 ;;
      match err with
      | Some e => ret (Returned (Some e))
      | None => ret (Panicked msg)
      end
  end.

Definition Delete (id : string) : M (option error) := database.Delete id.

(** [FindByID]: the entity is a pointer, [None] is nil. *)
Definition FindByID (id : string)
  : M (Outcome (option Document * option error)) :=
  '(entity, err) <- database.FindByID id ;;
  match err with
  | Some err =>
      ret (Returned
             (None, Some (errors_Wrap err "unable to fetch from repository")))
  | None =>
      match entity with
      | None =>
          ret (Panicked
                 "runtime error: invalid memory address or nil pointer dereference")
      | Some entity =>
          '(filePath, err) <- common.Get (Path entity) ;;
          match err with
          | Some err =>
              ret (Returned
                     (None,
                      Some (errors_Wrap err "unable to get path from storage")))
          | None => ret (Returned (Some (set_Path filePath entity), None))
          end
      end
  end.

(** The three conditional assignments of [UpdateFields]: the merged
    entity, or the error of an unsupported type. *)
Definition merge (entity updatedDoc : Document) : error + Document :=
  let entity :=
    if negb (String.eqb (Description updatedDoc) "")
    then set_Description (Description updatedDoc) entity else entity in
  let entity :=
    if negb (String.eqb (DisplayName updatedDoc) "")
    then set_DisplayName (DisplayName updatedDoc) entity else entity in
  if negb (String.eqb (Type_ updatedDoc) "") then
    if String.eqb (Type_ updatedDoc) "book"
       || String.eqb (Type_ updatedDoc) "paper"
    then inr (set_Type (Type_ updatedDoc) entity)
    else inl (errors_New "unsupported type")
  else inr entity.

(** [UpdateFields]: the named result [doc] is the zero document on every
    error path of the service. *)
Definition UpdateFields (id : string) (updatedDoc : Document)
  : M (Document * option error) :=
  let doc := zeroDocument in
  '(entity, err) <- database.FindByID id ;;
  match err with
  | Some _ => ret (doc, Some (errors_New "unable to find entity"))
  | None =>
      match entity with
      | None => ret (doc, Some (errors_New "entity does not exist"))
      | Some entity =>
          match merge entity updatedDoc with
          | inl e => ret (doc, Some e)
          | inr entity => database.UpdateDocument entity
          end
      end
  end.

Section Upload.

Variable Match : list Z -> filetype.Type_ * option error.

(** [Add]: the error, and the file and the document as the call leaves
    them (the document is passed by pointer).  The detached call
    [go s.CreateCover] takes no part in the result. *)
Definition Add (file : File) (doc : Document)
  : M (option error * File * Document) :=
  let (supported, file) := isSupported Match file in
  if negb supported then ret (Some ErrInvalidFileType, file, doc)
  else
    '(path, err, file) <- common.Save (Name doc) file ;;
    match err with
    | Some err =>
        ret (Some (errors_Wrap err "failed to write to storage"), file, doc)
    | None =>
        u <- uuid_New ;;
        let doc := set_ID (uuid.String_ u) doc in
        let doc := set_Path path doc in
        t <- time_Now ;;
        let doc := set_Created t doc in
        let doc := set_Updated (Some t) doc in
        err <- database.Insert doc ;;
        match err with
        | Some err =>
            ret (Some (errors_Wrap err "failed to store data in repo"),
                 file, doc)
        | None => ret (None, file, doc)
        end
    end.

End Upload.

End documentService.

(** ** Package books: the book service *)

Module books.

Section Service.

Variable Match : list Z -> filetype.Type_ * option error.

Definition Add (file : File) (book : Document)
  : M (option error * File * Document) :=
  let book := set_Type "book" book in
  '(err, file, book) <- documentService.Add Match file book ;;
  match err with
  | Some err =>
      ret (Some (errors_Wrap err "failed to store data in repo"),
           file, book)
  | None => ret (None, file, book)
  end.

Definition FindByID (id : string)
  : M (Outcome (option Document * option error)) :=
  out <- documentService.FindByID id ;;
  match out with
  | Returned (_, Some err) =>
      ret (Returned
             (None, Some (errors_Wrap err "unable to fetch from repository")))
  | other => ret other
  end.

End Service.

End books.

(** ** Error messages *)

(** [Error()] of github.com/pkg/errors: a wrapped error prints its own
    message, a colon, and the message of its cause. *)
Fixpoint Error_ (e : error) : string :=
  match e with
  | errors_New msg => msg
  | errors_Wrap cause msg => msg ++ ": " ++ Error_ cause
  end.

(** The verb [%d] applied to a Go int. *)
Definition format_int (n : Z) : string := NilZero.string_of_int (Z.to_int n).

(** ** Package database: connecting *)

Section Retry.

(** The connection type ([*sql.DB]) and the callback: [callback k] is what
    its k-th invocation returns, counting from 0. *)
Variable Conn : Type.
Variable callback : nat -> error + Conn.

(** What a run of [retryPostgres] did: its result, the number of times it
    invoked the callback, and the time it spent in [time.Sleep]. *)
Record Attempted : Type := mkAttempted {
  outcome : error + Conn;
  calls : nat;
  slept : Z
}.

(** The loop [for i := 0; i <= attempts; i++] from the index [i] on, with
    [iterations] rounds left. *)
Fixpoint retry_loop (iterations i : nat) (attempts sleep : Z) : Attempted :=
  match iterations with
  | O =>
      mkAttempted
        (inl (errors_New
                ("after " ++ format_int attempts
                   ++ " attempts, connection failed")))
        i (Z.of_nat i * sleep)
  | S n =>
      match callback i with
      | inr conn => mkAttempted (inr conn) (S i) (Z.of_nat i * sleep)
      | inl _ => retry_loop n (S i) attempts sleep
      end
  end.

(** [retryPostgres(attempts, sleep, callback)]. *)
Definition retryPostgres (attempts sleep : Z) : Attempted :=
  retry_loop (Z.to_nat (attempts + 1)) 0 attempts sleep.

End Retry.

Arguments outcome {Conn} a.
Arguments calls {Conn} a.
Arguments slept {Conn} a.

(** ** Package common: responses *)

Module response.

(** What a handler writes: the text of [http.Error], or the JSON encoding of
    a value. *)
Inductive Payload : Type :=
| Text (s : string)
| Json_Document (d : Document)
| Json_null
| Json_status_success.

Record Response : Type := mkResponse {
  StatusCode : nat;
  Body : Payload
}.

Definition StatusOK : nat := 200.
Definition StatusCreated : nat := 201.
Definition StatusBadRequest : nat := 400.
Definition StatusInternalServerError : nat := 500.

Definition newline : string := String (ascii_of_nat 10) EmptyString.

(** [MakeError]: logs, then [http.Error(w, message, code)], which writes the
    message followed by a newline. *)
Definition MakeError (code : nat) (domain message method : string)
  : Response :=
  mkResponse code (Text (message ++ newline)).

End response.

(** ** Package documents: the HTTP handler *)

Module documentHandler.

Import response.

(** [FindByID]; [vars_id] is [mux.Vars(r)["id"]]. *)
Definition FindByID (vars_id : option string) : M (Outcome Response) :=
  match vars_id with
  | None =>
      ret (Returned (MakeError StatusBadRequest "document" "Missing Id"
                       "findbyid"))
  | Some id =>
      out <- documentService.FindByID id ;;
      match out with
      | Panicked msg => ret (Panicked msg)
      | Returned (_, Some _) =>
          ret (Returned (MakeError StatusInternalServerError "document"
                           "Server Error" "findbyid"))
      | Returned (Some entity, None) =>
          ret (Returned (mkResponse StatusOK (Json_Document entity)))
      | Returned (None, None) => ret (Returned (mkResponse StatusOK Json_null))
      end
  end.

(** [UpdateFields]; [decoded] is what [json.Unmarshal] makes of the body. *)
Definition UpdateFields (decoded : error + Document) (vars_id : option string)
  : M Response :=
  match decoded with
  | inl _ =>
      ret (MakeError StatusBadRequest "document" "Bad Request" "updateFields")
  | inr req =>
      match vars_id with
      | None =>
          ret (MakeError StatusBadRequest "document" "Missing Id"
                 "updateFields")
      | Some id =>
          '(entity, err) <- documentService.UpdateFields id req ;;
          match err with
          | Some _ =>
              ret (MakeError StatusInternalServerError "document"
                     "Server Error" "updateFields")
          | None => ret (mkResponse StatusOK (Json_Document entity))
          end
      end
  end.

Definition Delete (vars_id : option string) : M Response :=
  match vars_id with
  | None =>
      ret (MakeError StatusBadRequest "document" "Missing Id" "delete")
  | Some id =>
      err <- documentService.Delete id ;;
      match err with
      | Some _ =>
          ret (MakeError StatusInternalServerError "document" "Server Error"
                 "delete")
      | None => ret (mkResponse StatusOK Json_status_success)
      end
  end.

Definition Scan : M (Outcome Response) :=
  out <- documentService.Scan ;;
  match out with
  | Panicked msg => ret (Panicked msg)
  | Returned (Some _) =>
      ret (Returned (MakeError StatusInternalServerError "document"
                       "Server Error" "scan"))
  | Returned None => ret (Returned (mkResponse StatusOK Json_status_success))
  end.

End documentHandler.

(** ** Package books: the HTTP handler *)

Module bookHandler.

Import response.

(** The parts of the multipart request that [Create] reads: the result of
    [r.FormFile("file")] (the file and the name in its header), and the
    values of the form field "name" if the field is present. *)
Record CreateRequest : Type := mkCreateRequest {
  FormFile : error + (File * string);
  FormName : option (list string)
}.

Section Upload.

Variable Match : list Z -> filetype.Type_ * option error.

(** [Create]: the response, or the panic of [displayName[0]] on a field
    without values.  [r.FormFile] returns a file whenever it returns no
    error, so the branch on [file == nil] is never taken. *)
Definition Create (r : CreateRequest) : M (Outcome Response) :=
  match FormFile r with
  | inl _ =>
      ret (Returned (MakeError StatusBadRequest "book" "Unable to parse form"
                       "create"))
  | inr (file, Filename) =>
      match FormName r with
      | None =>
          ret (Returned (MakeError StatusBadRequest "book"
                           "Name missing from form" "create"))
      | Some [] =>
          ret (Panicked "runtime error: index out of range [0] with length 0")
      | Some (displayName0 :: _) =>
          let book :=
            mkDocument "" displayName0 Filename "" "book" "" [] zeroTime None in
          '(err, file, book) <- books.Add Match file book ;;
          match err with
          | Some err =>
              ret (Returned (MakeError StatusInternalServerError "book"
                               (Error_ err) "add"))
          | None =>
              ret (Returned (mkResponse StatusCreated (Json_Document book)))
          end
      end
  end.

End Upload.

End bookHandler.

(** ** What the specification says, in its own words *)

(** A byte stream begins with a recognized PDF or EPUB signature when the
    signature classifier, given the leading bytes of the stream (at most 261
    of them), reports the kind PDF or the kind EPUB. *)
Definition recognised (Match : list Z -> filetype.Type_ * option error)
  (stream : list Z) : Prop :=
  exists kind,
    Match (firstn 261 stream) = (kind, None)
    /\ (kind = filetype.TypeEpub \/ kind = filetype.TypePdf).

(** The part of a key after its last separator. *)
Fixpoint after_last_separator (key : string) : string :=
  match key with
  | EmptyString => EmptyString
  | String c rest =>
      if filepath.has_separator rest then after_last_separator rest
      else if filepath.IsPathSeparator c then rest
      else key
  end.

(** The key with its directory and its extension stripped. *)
Definition strip_dir_ext (key : string) : string :=
  let base := after_last_separator key in
  substring 0 (length base - length (filepath.Ext key)) base.

(** The row stored under an identifier. *)
Definition lookup (id : string) (w : World) : option Row :=
  find (fun r => String.eqb (col_id r) id) (documents_rows (db w)).

(** ** Sample inputs *)

(** "%PDF" followed by 257 zero bytes: an upload of 261 bytes. *)
Definition pdf_upload : File :=
  mkFile ([0x25; 0x50; 0x44; 0x46]%Z ++ repeat 0%Z 257)%list 0.

(** "%PDF-1.4": an upload of 8 bytes. *)
Definition short_pdf_upload : File :=
  mkFile [0x25; 0x50; 0x44; 0x46; 0x2D; 0x31; 0x2E; 0x34]%Z 0.

(** An EPUB container of 261 bytes: the ZIP local file header, 26 bytes of
    header fields, the mimetype entry, and padding. *)
Definition epub_upload : File :=
  mkFile ([0x50; 0x4B; 0x03; 0x04]%Z ++ repeat 0%Z 26
            ++ filetype.epub_mimetype ++ repeat 0%Z 203)%list 0.

Definition draft : Document :=
  mkDocument "" "Notes" "notes.pdf" "" "paper" "" [] zeroTime None.

(** A process whose store holds [rows] and whose bucket holds one empty
    object per key. *)
Definition sample_world (rows : list Row) (keys : list string) : World :=
  mkWorld (mkDB rows [] None 5%Z)
    (mkBucket (map (fun k => mkObject k false []) keys) None
       (fun p => ("https://bucket.example/" ++ p ++ "?signature")%string))
    (fun n => repeat (Z.of_nat n) 16) 0
    (fun n => Z.of_nat (1000 + n)) 0 [].

Definition notes_row : Row :=
  mkRow "id-1" "old text" "Notes" "notes.pdf" "paper" "notes.pdf" 5%Z None.

(** The sample process with the bucket out of reach. *)
Definition bucket_down_world (rows : list Row) : World :=
  mkWorld (mkDB rows [] None 5%Z)
    (mkBucket [] (Some (errors_New "connection refused")) (fun p => p))
    (fun n => repeat (Z.of_nat n) 16) 0
    (fun n => Z.of_nat (1000 + n)) 0 [].

(** The sample process with the database connection broken. *)
Definition db_down_world (rows : list Row) (keys : list string) : World :=
  mkWorld (mkDB rows [] (Some (errors_New "connection refused")) 5%Z)
    (mkBucket (map (fun k => mkObject k false []) keys) None (fun p => p))
    (fun n => repeat (Z.of_nat n) 16) 0
    (fun n => Z.of_nat (1000 + n)) 0 [].

(** A database that refuses the first two connections and accepts the
    third. *)
Definition third_time_lucky (k : nat) : error + nat :=
  if Nat.ltb k 2 then inl (errors_New "connection refused") else inr k.


(** The multipart request of an upload with a display name. *)
Definition upload_request (file : File) : bookHandler.CreateRequest :=
  bookHandler.mkCreateRequest (inr (file, "notes.pdf")) (Some ["Notes"]).

(** A row as [Add] and [Scan] store them, under a UUID. *)
Definition stored_row : Row :=
  mkRow "00000000-0000-4000-8000-000000000000" "text" "Go in Action"
    "go.pdf" "book" "go.pdf" 5%Z None.

(** ** Auxiliary definitions *)

(** No byte of the string is a dot. *)
Fixpoint dotfree (s : string) : bool :=
  match s with
  | EmptyString => true
  | String c rest => negb (Ascii.eqb c "."%char) && dotfree rest
  end.

(** No byte of the string is a path separator. *)
Definition sepfree (s : string) : bool := negb (filepath.has_separator s).

(** [old] occurs somewhere in [s]. *)
Fixpoint occurs (old s : string) : bool :=
  prefix old s
  || match s with
     | EmptyString => false
     | String _ rest => occurs old rest
     end.


(** The document that [FindByID] builds from a row. *)
Definition document_of_row (d : sql_DB) (r : Row) : Document :=
  let doc :=
    mkDocument (col_id r) (col_display_name r) (col_name r) (col_path r)
      (col_type r) (col_description r) [] (col_created r) (col_updated r) in
  if negb (String.eqb (database.tag_list d (col_id r)) "")
  then set_Tags (strings.Split (database.tag_list d (col_id r)) ",") doc
  else doc.

(** What [existsByPath] answers on a database. *)
Definition path_stored (d : sql_DB) (path : string) : bool :=
  match db_fault d with
  | Some _ => false
  | None =>
      Nat.ltb 0
        (List.length
           (filter (fun r => String.eqb (col_path r) path) (documents_rows d)))
  end.

(** * Properties *)

(** ** The library functions on sample arguments *)

Example Ext_of_key : filepath.Ext "books/a.pdf" = ".pdf".
Proof. reflexivity. Qed.

Example Ext_dot_in_directory_only : filepath.Ext "a.b/c" = "".
Proof. reflexivity. Qed.

Example Dir_of_nested_key : filepath.Dir "books/sub/a.pdf" = "books/sub".
Proof. reflexivity. Qed.

Example Dir_without_directory : filepath.Dir "a.pdf" = ".".
Proof. reflexivity. Qed.

Example Dir_of_rooted_key : filepath.Dir "/a.pdf" = "/".
Proof. reflexivity. Qed.

Example Dir_is_cleaned : filepath.Dir "a/../b//c/./x.pdf" = "b/c".
Proof. reflexivity. Qed.

Example Clean_keeps_leading_dotdot : filepath.Clean "../../x/.." = "../..".
Proof. reflexivity. Qed.

Example Clean_stops_at_root : filepath.Clean "/../a/b/" = "/a/b".
Proof. reflexivity. Qed.

Example ReplaceAll_every_occurrence :
  strings.ReplaceAll "a.pdf.pdfx" ".pdf" "" = "ax".
Proof. reflexivity. Qed.

Example ReplaceAll_does_not_overlap : strings.ReplaceAll "aaa" "aa" "b" = "ba".
Proof. reflexivity. Qed.

Example Split_tag_list : strings.Split "t1,t2,,t3" "," = ["t1"; "t2"; ""; "t3"].
Proof. reflexivity. Qed.

Example uuid_String_form :
  uuid.String_ (uuid.NewRandom (repeat 255%Z 16))
  = "ffffffff-ffff-4fff-bfff-ffffffffffff".
Proof. reflexivity. Qed.

(** ** The file classifier *)

Lemma Type_eqb_eq (a b : filetype.Type_) :
  filetype.Type_eqb a b = true <-> a = b.
Proof.
  destruct a as [ea ma], b as [eb mb]; unfold filetype.Type_eqb; simpl.
  rewrite andb_true_iff, !String.eqb_eq.
  split; [intros [-> ->]; reflexivity | intros H; inversion H; auto].
Qed.

Lemma supported_kind_iff (kind : filetype.Type_) :
  negb (filetype.Type_eqb kind filetype.TypeEpub)
  && negb (filetype.Type_eqb kind filetype.TypePdf) = false
  <-> kind = filetype.TypeEpub \/ kind = filetype.TypePdf.
Proof.
  rewrite andb_false_iff, !negb_false_iff, !Type_eqb_eq. reflexivity.
Qed.

Section ClassifierFacts.

Variable Match : list Z -> filetype.Type_ * option error.

(** When fewer than 261 bytes are left the read fails, the file is
    rejected, and the cursor stays where the read stopped. *)
Lemma isSupported_short (f : File) :
  List.length (remaining f) < 261 ->
  isSupported Match f
  = (false, mkFile (content f) (offset f + List.length (remaining f))).
Proof.
  intros Hlen. unfold isSupported, io_ReadFull.
  rewrite firstn_all2 by lia.
  destruct (Nat.eqb_spec (List.length (remaining f)) 261) as [E | _];
    [lia |].
  destruct (Nat.eqb (List.length (remaining f)) 0); reflexivity.
Qed.

(** When 261 bytes can be read the classifier sees exactly those, and the
    cursor is back at the start. *)
Lemma isSupported_full (f : File) :
  261 <= List.length (remaining f) ->
  isSupported Match f
  = (match Match (firstn 261 (remaining f)) with
     | (_, Some _) => false
     | (kind, None) =>
         if negb (filetype.Type_eqb kind filetype.TypeEpub)
            && negb (filetype.Type_eqb kind filetype.TypePdf)
         then false else true
     end, mkFile (content f) 0).
Proof.
  intros Hlen. unfold isSupported, io_ReadFull.
  assert (Hn : List.length (firstn 261 (remaining f)) = 261)
    by (rewrite length_firstn; lia).
  rewrite Hn, Nat.eqb_refl, Nat.sub_diag. simpl repeat.
  rewrite app_nil_r. unfold Seek_start. simpl content.
  destruct (Match (firstn 261 (remaining f))) as [kind [e |]];
    [reflexivity |].
  destruct (negb (filetype.Type_eqb kind filetype.TypeEpub)
            && negb (filetype.Type_eqb kind filetype.TypePdf));
    reflexivity.
Qed.

End ClassifierFacts.

(** C2 (as amended).  The classifier accepts a stream exactly when the full
    prefix of 261 bytes can be read from it and the signature classifier
    reports that prefix as PDF or EPUB; in particular every stream that is
    not recognised is rejected, and so is every stream with fewer than 261
    bytes left. *)
Theorem isSupported_accepts_iff
  (Match : list Z -> filetype.Type_ * option error) (f : File) :
  fst (isSupported Match f) = true
  <-> 261 <= List.length (remaining f) /\ recognised Match (remaining f).
Proof.
  destruct (Nat.lt_ge_cases (List.length (remaining f)) 261) as [Hs | Hf].
  - rewrite isSupported_short by exact Hs. cbn [fst].
    split; [discriminate | intros [H _]; lia].
  - rewrite isSupported_full by exact Hf. unfold recognised.
    destruct (Match (firstn 261 (remaining f))) as [kind [e |]]; cbn [fst].
    + split; [discriminate | intros [_ [k [H _]]]; discriminate].
    + destruct (negb (filetype.Type_eqb kind filetype.TypeEpub)
                && negb (filetype.Type_eqb kind filetype.TypePdf)) eqn:E.
      * split; [discriminate |].
        intros [_ [k [H Hk]]]. inversion H; subst k.
        apply supported_kind_iff in Hk. congruence.
      * split; [| reflexivity]. intros _. split; [exact Hf |].
        exists kind. split; [reflexivity | apply supported_kind_iff, E].
Qed.

(** The 261-byte PDF upload is accepted. *)
Lemma isSupported_accepts_iff_witness :
  fst (isSupported filetype.Match_signatures pdf_upload) = true.
Proof.
  apply (proj2 (isSupported_accepts_iff filetype.Match_signatures pdf_upload)).
  split.
  - vm_compute. apply le_n.
  - exists filetype.TypePdf. split; [reflexivity | right; reflexivity].
Defined.

(** C2 (as stated) fails: the 8 bytes "%PDF-1.4" begin with the PDF
    signature, and the classifier rejects them. *)
Lemma isSupported_rejects_short_pdf :
  recognised filetype.Match_signatures (remaining short_pdf_upload)
  /\ fst (isSupported filetype.Match_signatures short_pdf_upload) = false.
Proof.
  split.
  - exists filetype.TypePdf. split; [reflexivity | right; reflexivity].
  - reflexivity.
Qed.

(** C4 (as amended).  For a stream positioned at its start that holds the
    full prefix of 261 bytes, accepted or rejected, classification leaves
    the bytes alone and the cursor where it was. *)
Theorem isSupported_restores_cursor
  (Match : list Z -> filetype.Type_ * option error) (f : File) :
  offset f = 0 ->
  261 <= List.length (content f) ->
  snd (isSupported Match f) = f.
Proof.
  intros Hoff Hlen.
  rewrite isSupported_full by (unfold remaining; rewrite Hoff; exact Hlen).
  destruct f as [c o]; simpl in *. subst o. reflexivity.
Qed.

Lemma isSupported_restores_cursor_witness :
  snd (isSupported filetype.Match_signatures pdf_upload) = pdf_upload.
Proof.
  apply (isSupported_restores_cursor filetype.Match_signatures pdf_upload).
  - reflexivity.
  - vm_compute. apply le_n.
Defined.

(** C4 (as stated) fails: after the 8-byte upload is rejected its cursor is
    at 8, not at 0 where it was. *)
Lemma isSupported_leaves_short_stream_at_end :
  fst (isSupported filetype.Match_signatures short_pdf_upload) = false
  /\ offset short_pdf_upload = 0
  /\ offset (snd (isSupported filetype.Match_signatures short_pdf_upload)) = 8.
Proof. repeat split. Qed.

(** An EPUB container of 261 bytes is accepted; 261 bytes with no known
    signature are rejected, with the cursor back at the start. *)
Example isSupported_accepts_epub :
  isSupported filetype.Match_signatures epub_upload = (true, epub_upload).
Proof. reflexivity. Qed.

Example isSupported_rejects_unknown :
  isSupported filetype.Match_signatures (mkFile (repeat 0x41%Z 261) 0)
  = (false, mkFile (repeat 0x41%Z 261) 0).
Proof. reflexivity. Qed.

(** ** Add *)

(** C3.  When the classifier rejects the stream, [Add] returns
    [ErrInvalidFileType] and the world is the one it started from: nothing
    was written to the bucket or to the table, and the journal holds no new
    call of [Save] or [Insert]. *)
Theorem Add_rejected_has_no_effect
  (Match : list Z -> filetype.Type_ * option error)
  (file : File) (doc : Document) (w : World) :
  fst (isSupported Match file) = false ->
  documentService.Add Match file doc w
  = ((Some ErrInvalidFileType, snd (isSupported Match file), doc), w).
Proof.
  intros Hrej. unfold documentService.Add.
  destruct (isSupported Match file) as [supported file']. simpl in Hrej.
  subst supported. reflexivity.
Qed.

Lemma Add_rejected_has_no_effect_witness :
  documentService.Add filetype.Match_signatures short_pdf_upload draft
    (sample_world [notes_row] ["notes.pdf"])
  = ((Some ErrInvalidFileType,
      snd (isSupported filetype.Match_signatures short_pdf_upload), draft),
     sample_world [notes_row] ["notes.pdf"]).
Proof.
  apply (Add_rejected_has_no_effect filetype.Match_signatures).
  reflexivity.
Defined.

Lemma uuid_String_not_empty (u : uuid.UUID) : uuid.String_ u <> "".
Proof. unfold uuid.String_. simpl. discriminate. Qed.

(** What a successful [Add] leaves in the document: the draft with a fresh
    identifier, the path the bucket returned, and one timestamp in both
    [Created] and [Updated]. *)
Lemma Add_success_shape
  (Match : list Z -> filetype.Type_ * option error)
  (file file' : File) (doc doc' : Document) (w w' : World) :
  documentService.Add Match file doc w = ((None, file', doc'), w') ->
  exists (u : uuid.UUID) (t : Time) (path : string),
    doc' = set_Updated (Some t)
             (set_Created t (set_Path path (set_ID (uuid.String_ u) doc))).
Proof.
  unfold documentService.Add, common.Save, database.Insert.
  destruct (isSupported Match file) as [[|] f1]; cbn [negb];
    [| intros H; discriminate H].
  unfold bind, ret, record, get_bucket, put_bucket, get_db, put_db,
    uuid_New, time_Now.
  cbn [bucket db].
  destruct (bucket_fault (bucket w)) as [e |];
    [intros H; discriminate H |].
  destruct (io_Copy f1) as [body f2]. cbn [bucket db].
  destruct (db_fault (db w)) as [e |]; [intros H; discriminate H |].
  match goal with
  | |- context [existsb ?p ?l] => destruct (existsb p l)
  end; [intros H; discriminate H |].
  intros H. inversion H; subst. eauto.
Qed.

(** C9.  After a successful [Add] the document has a non-empty identifier,
    its updated timestamp is its created timestamp, and its type is the one
    the caller put in the draft; after a successful [Add] of the book
    service the type is "book", whatever the draft said. *)
Theorem Add_success_identity_stamps_type
  (Match : list Z -> filetype.Type_ * option error)
  (file : File) (doc : Document) (w : World) :
  (forall file' doc' w',
      documentService.Add Match file doc w = ((None, file', doc'), w') ->
      ID doc' <> ""
      /\ Updated doc' = Some (Created doc')
      /\ Type_ doc' = Type_ doc)
  /\
  (forall file' book' w',
      books.Add Match file doc w = ((None, file', book'), w') ->
      ID book' <> ""
      /\ Updated book' = Some (Created book')
      /\ Type_ book' = "book").
Proof.
  split.
  - intros file' doc' w' H.
    apply Add_success_shape in H. destruct H as (u & t & path & ->).
    cbn. repeat split. apply uuid_String_not_empty.
  - intros file' book' w' H. unfold books.Add, bind, ret in H.
    destruct (documentService.Add Match file (set_Type "book" doc) w)
      as [[[err f1] b1] w1] eqn:E.
    destruct err as [e |]; [discriminate H |].
    inversion H; subst.
    apply Add_success_shape in E. destruct E as (u & t & path & ->).
    cbn. repeat split. apply uuid_String_not_empty.
Qed.

(** The 261-byte PDF upload with a draft of type "paper": the document
    service keeps "paper", the book service stores "book". *)
Lemma Add_success_identity_stamps_type_witness :
  (ID (snd (fst (documentService.Add filetype.Match_signatures pdf_upload
                   draft (sample_world [] [])))) <> ""
   /\ Updated (snd (fst (documentService.Add filetype.Match_signatures
                           pdf_upload draft (sample_world [] []))))
      = Some (Created (snd (fst (documentService.Add
                                   filetype.Match_signatures pdf_upload draft
                                   (sample_world [] [])))))
   /\ Type_ (snd (fst (documentService.Add filetype.Match_signatures
                         pdf_upload draft (sample_world [] []))))
      = "paper")
  /\ Type_ (snd (fst (books.Add filetype.Match_signatures pdf_upload draft
                        (sample_world [] []))))
     = "book".
Proof.
  pose proof (Add_success_identity_stamps_type filetype.Match_signatures
                pdf_upload draft (sample_world [] [])) as [Hdoc Hbook].
  split.
  - eapply Hdoc. vm_compute. reflexivity.
  - eapply Hbook. vm_compute. reflexivity.
Defined.

(** ** The repository lookup *)

(** The repository never reports an error and never changes the world. *)
Lemma repo_FindByID_returns (id : string) (w : World) :
  database.FindByID id w
  = ((Some (match database.query_row_by_id (db w) id with
            | inl _ => zeroDocument
            | inr r => document_of_row (db w) r
            end), None), w).
Proof.
  unfold database.FindByID, bind, ret, get_db.
  destruct (database.query_row_by_id (db w) id) as [e | r]; [reflexivity |].
  unfold document_of_row.
  destruct (negb (String.eqb (database.tag_list (db w) (col_id r)) ""));
    reflexivity.
Qed.

Lemma query_row_unknown (d : sql_DB) (id : string) :
  find (fun r => String.eqb (col_id r) id) (documents_rows d) = None ->
  exists e, database.query_row_by_id d id = inl e.
Proof.
  intros H. unfold database.query_row_by_id. rewrite H.
  destruct (db_fault d); eauto.
Qed.

(** C1 (the code departs from it).  For an identifier that matches no row,
    the repository reports no error and hands back the zero document; the
    service then asks the bucket for the access path of the empty key and
    returns that document, or the wrapped storage error.  No lookup ends in
    a not-found error. *)
Theorem FindByID_unknown_identifier_returns_document
  (id : string) (w : World) :
  lookup id w = None ->
  database.FindByID id w = ((Some zeroDocument, None), w)
  /\ documentService.FindByID id w
     = (match bucket_fault (bucket w) with
        | None =>
            Returned
              (Some (set_Path (signer (bucket w) "") zeroDocument), None)
        | Some err =>
            Returned
              (None, Some (errors_Wrap err "unable to get path from storage"))
        end, w).
Proof.
  intros Hnone. unfold lookup in Hnone.
  destruct (query_row_unknown (db w) id Hnone) as [e He].
  assert (Hrepo : database.FindByID id w = ((Some zeroDocument, None), w))
    by (rewrite repo_FindByID_returns, He; reflexivity).
  split; [exact Hrepo |].
  unfold documentService.FindByID, bind. rewrite Hrepo.
  unfold common.Get, bind, ret, get_bucket. cbn [Path zeroDocument].
  destruct (bucket_fault (bucket w)); reflexivity.
Qed.

(** On an empty table the lookup of "missing" returns a document. *)
Lemma FindByID_unknown_identifier_returns_document_witness :
  documentService.FindByID "missing" (sample_world [] [])
  = (Returned
       (Some (set_Path "https://bucket.example/?signature" zeroDocument),
        None),
     sample_world [] []).
Proof.
  exact (proj2 (FindByID_unknown_identifier_returns_document "missing"
                  (sample_world [] []) eq_refl)).
Defined.

(** ** UpdateFields *)

(** C7.  A request whose type is not empty and is neither "book" nor "paper"
    fails with the error "unsupported type"; the world is unchanged: no row
    is modified and the journal holds no new repository call. *)
Theorem UpdateFields_rejects_unsupported_type
  (id : string) (updatedDoc : Document) (w : World) :
  Type_ updatedDoc <> "" ->
  Type_ updatedDoc <> "book" ->
  Type_ updatedDoc <> "paper" ->
  documentService.UpdateFields id updatedDoc w
  = ((zeroDocument, Some (errors_New "unsupported type")), w).
Proof.
  intros Hne Hbook Hpaper.
  apply String.eqb_neq in Hne, Hbook, Hpaper.
  unfold documentService.UpdateFields, bind.
  rewrite repo_FindByID_returns.
  unfold documentService.merge. rewrite Hne, Hbook, Hpaper. reflexivity.
Qed.

Lemma UpdateFields_rejects_unsupported_type_witness :
  documentService.UpdateFields "id-1"
    (mkDocument "" "Renamed" "" "" "magazine" "new text" [] zeroTime None)
    (sample_world [notes_row] ["notes.pdf"])
  = ((zeroDocument, Some (errors_New "unsupported type")),
     sample_world [notes_row] ["notes.pdf"]).
Proof.
  apply UpdateFields_rejects_unsupported_type; cbn; intros H; discriminate H.
Defined.

Lemma find_map_preserving (p : Row -> bool) (f : Row -> Row) (l : list Row) :
  (forall x, p (f x) = p x) ->
  find p (map f l) = option_map f (find p l).
Proof.
  intros Hp. induction l as [| x l IH]; [reflexivity |].
  simpl. rewrite Hp. destruct (p x); [reflexivity | exact IH].
Qed.

Lemma document_of_row_fields (d : sql_DB) (r : Row) :
  ID (document_of_row d r) = col_id r
  /\ DisplayName (document_of_row d r) = col_display_name r
  /\ Type_ (document_of_row d r) = col_type r
  /\ Description (document_of_row d r) = col_description r.
Proof.
  unfold document_of_row.
  destruct (negb (String.eqb (database.tag_list d (col_id r)) ""));
    repeat split.
Qed.

(** With an empty display name and an empty type, the merge touches the
    description only, and only when the request carries one. *)
Lemma merge_description_only (entity updatedDoc : Document) :
  DisplayName updatedDoc = "" ->
  Type_ updatedDoc = "" ->
  documentService.merge entity updatedDoc
  = inr (if String.eqb (Description updatedDoc) "" then entity
         else set_Description (Description updatedDoc) entity).
Proof.
  intros Hn Ht. unfold documentService.merge. rewrite Hn, Ht. cbn.
  destruct (String.eqb (Description updatedDoc) ""); reflexivity.
Qed.

(** C8.  When the request carries at most a description (its display name
    and its type are empty), the row stored under the identifier keeps its
    display name and its type, and also its identifier, name, path and
    creation time; its description becomes the one supplied, unless that is
    empty; the rows under other identifiers are not touched. *)
Theorem UpdateFields_description_only_keeps_name_and_type
  (id : string) (updatedDoc : Document) (w : World) (r : Row) :
  DisplayName updatedDoc = "" ->
  Type_ updatedDoc = "" ->
  lookup id w = Some r ->
  (exists r',
      lookup id (snd (documentService.UpdateFields id updatedDoc w)) = Some r'
      /\ col_display_name r' = col_display_name r
      /\ col_type r' = col_type r
      /\ col_id r' = col_id r
      /\ col_name r' = col_name r
      /\ col_path r' = col_path r
      /\ col_created r' = col_created r
      /\ (db_fault (db w) = None ->
          col_description r'
          = if String.eqb (Description updatedDoc) "" then col_description r
            else Description updatedDoc))
  /\ (forall id',
         id' <> id ->
         lookup id' (snd (documentService.UpdateFields id updatedDoc w))
         = lookup id' w).
Proof.
  intros Hn Ht Hr.
  assert (Hid : col_id r = id).
  { unfold lookup in Hr. apply find_some in Hr. destruct Hr as [_ Hr].
    apply String.eqb_eq in Hr. exact Hr. }
  unfold documentService.UpdateFields, bind.
  rewrite repo_FindByID_returns.
  rewrite merge_description_only by assumption.
  unfold database.UpdateDocument, bind, ret, time_Now, record, get_db, put_db.
  cbn [db].
  unfold database.query_row_by_id.
  destruct (db_fault (db w)) as [e |] eqn:Hfault.
  - (* the connection is broken: nothing is written *)
    cbn [snd]. unfold lookup in *. cbn [db].
    split; [| reflexivity].
    exists r. repeat split; try assumption. intros H; discriminate H.
  - unfold lookup in Hr. rewrite Hr.
    set (entity :=
           if String.eqb (Description updatedDoc) ""
           then document_of_row (db w) r
           else set_Description (Description updatedDoc)
                  (document_of_row (db w) r)).
    destruct (document_of_row_fields (db w) r) as (Ei & En & Et & Ed).
    assert (Hent : ID entity = id
                   /\ DisplayName entity = col_display_name r
                   /\ Type_ entity = col_type r
                   /\ Description entity
                      = if String.eqb (Description updatedDoc) ""
                        then col_description r else Description updatedDoc).
    { subst entity.
      destruct (String.eqb (Description updatedDoc) ""); cbn;
        repeat split; congruence. }
    destruct Hent as (Hi & Hdn & Hty & Hde).
    cbn [snd]. unfold lookup. cbn [db documents_rows].
    split.
    + rewrite find_map_preserving.
      * rewrite Hr. cbn [option_map]. rewrite Hi, Hid, String.eqb_refl.
        eexists. split; [reflexivity |].
        unfold database.update_row; cbn.
        repeat split; try assumption. intros _. exact Hde.
      * intros x. destruct (String.eqb (col_id x) (ID entity)); reflexivity.
    + intros id' Hneq.
      rewrite find_map_preserving.
      * destruct (find (fun r0 => String.eqb (col_id r0) id')
                    (documents_rows (db w))) as [x |] eqn:Hx;
          [| reflexivity].
        apply find_some in Hx. destruct Hx as [_ Hx].
        apply String.eqb_eq in Hx. cbn [option_map].
        rewrite Hi.
        destruct (String.eqb_spec (col_id x) id); [congruence | reflexivity].
      * intros x. destruct (String.eqb (col_id x) (ID entity)); reflexivity.
Qed.

(** The stored row "id-1" after a request that carries only a description. *)
Lemma UpdateFields_description_only_witness :
  exists r',
    lookup "id-1"
      (snd (documentService.UpdateFields "id-1"
              (mkDocument "" "" "" "" "" "new text" [] zeroTime None)
              (sample_world [notes_row] ["notes.pdf"]))) = Some r'
    /\ col_display_name r' = "Notes"
    /\ col_type r' = "paper"
    /\ col_description r' = "new text".
Proof.
  destruct (UpdateFields_description_only_keeps_name_and_type "id-1"
              (mkDocument "" "" "" "" "" "new text" [] zeroTime None)
              (sample_world [notes_row] ["notes.pdf"]) notes_row
              eq_refl eq_refl eq_refl)
    as [(r' & Hl & Hn & Ht & _ & _ & _ & _ & Hd) _].
  exists r'. repeat split; try assumption. exact (Hd eq_refl).
Defined.

(** ** Scan *)

Lemma existsByPath_returns (path : string) (w : World) :
  database.existsByPath path w = ((path_stored (db w) path, None), w).
Proof.
  unfold database.existsByPath, path_stored, bind, ret, get_db.
  destruct (db_fault (db w)); reflexivity.
Qed.

(** [Insert] leaves the bucket alone, forgets no path, and stores the path
    of the document when it succeeds. *)
Lemma Insert_effect (doc : Document) (w : World) :
  bucket (snd (database.Insert doc w)) = bucket w
  /\ (forall p, path_stored (db w) p = true ->
                path_stored (db (snd (database.Insert doc w))) p = true)
  /\ (fst (database.Insert doc w) = None ->
      path_stored (db (snd (database.Insert doc w))) (Path doc) = true).
Proof.
  unfold database.Insert, bind, ret, record, get_db, put_db. cbn [db].
  destruct (db_fault (db w)) as [e |] eqn:Hf.
  - cbn. repeat split; auto. intros H; discriminate H.
  - destruct (existsb _ _).
    + cbn. repeat split; auto. intros H; discriminate H.
    + cbn [fst snd db bucket]. unfold path_stored.
      cbn [db_fault documents_rows]. rewrite Hf.
      repeat split.
      * intros p Hp. rewrite filter_app, length_app.
        apply Nat.ltb_lt in Hp. apply Nat.ltb_lt. lia.
      * intros _. rewrite filter_app, length_app.
        unfold database.inserted_row at 1. cbn [filter col_path].
        rewrite String.eqb_refl. cbn [List.length].
        apply Nat.ltb_lt. lia.
Qed.

(** A run of the loop that ends without an error leaves the bucket alone,
    forgets no path, and ends with the path of every document stored. *)
Lemma upsert_loop_stores_paths (input : list Document) :
  forall (count count' : nat) (w w' : World),
    database.upsert_loop input count w = ((count', None), w') ->
    bucket w' = bucket w
    /\ (forall p, path_stored (db w) p = true -> path_stored (db w') p = true)
    /\ Forall (fun doc => path_stored (db w') (Path doc) = true) input.
Proof.
  induction input as [| doc rest IH]; intros count count' w w' H.
  - cbn in H. inversion H; subst. auto.
  - cbn [database.upsert_loop] in H. unfold bind at 1 in H.
    rewrite existsByPath_returns in H.
    destruct (path_stored (db w) (Path doc)) eqn:Hknown.
    + destruct (IH _ _ _ _ H) as (Hb & Hmono & Hall).
      repeat split; auto.
    + unfold bind in H.
      destruct (Insert_effect doc w) as (Hb0 & Hmono0 & Hnew).
      destruct (database.Insert doc w) as [[e |] wi]; cbn [fst snd] in *.
      * discriminate H.
      * destruct (IH _ _ _ _ H) as (Hb & Hmono & Hall).
        repeat split; [congruence | auto | ].
        constructor; [apply Hmono, Hnew; reflexivity | exact Hall].
Qed.

(** When the path of every document is stored, the loop inserts nothing. *)
Lemma upsert_loop_skips_stored (input : list Document) :
  forall (count : nat) (w : World),
    Forall (fun doc => path_stored (db w) (Path doc) = true) input ->
    database.upsert_loop input count w = ((count, None), w).
Proof.
  induction input as [| doc rest IH]; intros count w Hall.
  - reflexivity.
  - inversion Hall as [| ? ? Hdoc Hrest]; subst.
    cbn [database.upsert_loop]. unfold bind at 1.
    rewrite existsByPath_returns, Hdoc. apply IH, Hrest.
Qed.

(** The producer reads the random source and the clock only. *)
Lemma produce_frame (keys : list string) :
  forall w : World,
    db (snd (documentService.produce keys w)) = db w
    /\ bucket (snd (documentService.produce keys w)) = bucket w
    /\ journal (snd (documentService.produce keys w)) = journal w.
Proof.
  induction keys as [| path rest IH]; intros w; [cbn; auto |].
  cbn [documentService.produce].
  destruct (documentService.derive path); [apply IH | | cbn; auto].
  unfold bind, uuid_New, time_Now.
  match goal with
  | |- context [documentService.produce rest ?w0] =>
      destruct (IH w0) as (Hd & Hb & Hj);
      destruct (documentService.produce rest w0) as [[docs panic] w1]
  end.
  cbn in *. auto.
Qed.

(** The paths the producer sends, and whether it panics, depend on the keys
    alone. *)
Lemma produce_paths (keys : list string) :
  forall w1 w2 : World,
    map Path (fst (fst (documentService.produce keys w1)))
    = map Path (fst (fst (documentService.produce keys w2)))
    /\ snd (fst (documentService.produce keys w1))
       = snd (fst (documentService.produce keys w2)).
Proof.
  induction keys as [| path rest IH]; intros w1 w2; [cbn; auto |].
  cbn [documentService.produce].
  destruct (documentService.derive path); [apply IH | | cbn; auto].
  unfold bind, uuid_New, time_Now.
  match goal with
  | |- context [documentService.produce rest ?wa] =>
      match goal with
      | |- context [map Path (fst (fst (let (_, _) :=
                      documentService.produce rest ?wb in _)))
                    = map Path (fst (fst (let (_, _) :=
                      documentService.produce rest ?wc in _)))] =>
          destruct (IH wb wc) as (Hp & Hs);
          destruct (documentService.produce rest wb) as [[d1 p1] x1];
          destruct (documentService.produce rest wc) as [[d2 p2] x2]
      end
  end.
  cbn in *. split; congruence.
Qed.

Lemma List_returns (w : World) :
  common.List_ w = (fst (common.List_ w), w).
Proof.
  unfold common.List_, bind, ret, get_bucket.
  destruct (bucket_fault (bucket w)); reflexivity.
Qed.

Lemma List_of_bucket (w w' : World) :
  bucket w = bucket w' -> fst (common.List_ w) = fst (common.List_ w').
Proof.
  intros E. unfold common.List_, bind, ret, get_bucket. rewrite E.
  destruct (bucket_fault (bucket w')); reflexivity.
Qed.

(** A [Scan] that returns nil: the producer did not panic, the loop took
    every document without an error, and the count was logged. *)
Lemma Scan_returned_nil (w w1 : World) :
  documentService.Scan w = (Returned None, w1) ->
  exists docs wp count wl,
    documentService.produce (fst (common.List_ w)) w = ((docs, None), wp)
    /\ database.upsert_loop docs 0 wp = ((count, None), wl)
    /\ w1 = snd (record (Logged_documents_added count) wl).
Proof.
  intros H. unfold documentService.Scan in H. unfold bind at 1 in H.
  rewrite List_returns in H. unfold bind at 1 in H.
  destruct (documentService.produce (fst (common.List_ w)) w)
    as [[docs [msg |]] wp] eqn:Hprod.
  - unfold bind, ret in H.
    destruct (database.upsert_loop docs 0 wp) as [[c [e |]] wl];
      discriminate H.
  - unfold database.UpsertStream, bind, ret in H.
    destruct (database.upsert_loop docs 0 wp) as [[c [e |]] wl] eqn:Hloop;
      [discriminate H |].
    inversion H. exists docs, wp, c, wl. repeat split; assumption.
Qed.

(** A [Scan] whose documents are all stored already. *)
Lemma Scan_of_stored (w wp : World) (docs : list Document) :
  documentService.produce (fst (common.List_ w)) w = ((docs, None), wp) ->
  Forall (fun doc => path_stored (db wp) (Path doc) = true) docs ->
  documentService.Scan w
  = (Returned None, snd (record (Logged_documents_added 0) wp)).
Proof.
  intros Hprod Hall.
  unfold documentService.Scan. unfold bind at 1. rewrite List_returns.
  unfold bind at 1. rewrite Hprod.
  unfold database.UpsertStream, bind.
  rewrite (upsert_loop_skips_stored docs 0 wp Hall). reflexivity.
Qed.

(** C6.  After a [Scan] that returned without an error, a second [Scan] of
    the same bucket returns without an error, leaves the store exactly as
    the first one left it, calls [Insert] not once, and logs that 0
    documents were added. *)
Theorem Scan_twice_inserts_nothing (w w1 : World) :
  documentService.Scan w = (Returned None, w1) ->
  fst (documentService.Scan w1) = Returned None
  /\ db (snd (documentService.Scan w1)) = db w1
  /\ bucket (snd (documentService.Scan w1)) = bucket w1
  /\ journal (snd (documentService.Scan w1))
     = journal w1 ++ [Logged_documents_added 0].
Proof.
  intros H.
  destruct (Scan_returned_nil w w1 H)
    as (docs & wp & count & wl & Hprod & Hloop & Hw1).
  destruct (produce_frame (fst (common.List_ w)) w) as (_ & Hbk & _).
  rewrite Hprod in Hbk. cbn [snd] in Hbk.
  destruct (upsert_loop_stores_paths docs _ _ _ _ Hloop) as (Hbl & _ & Hall).
  assert (Hbucket : bucket w1 = bucket w)
    by (subst w1; cbn; congruence).
  assert (Hdb1 : db w1 = db wl) by (subst w1; reflexivity).
  (* the second run lists the same keys and sends the same paths *)
  pose proof (List_of_bucket w1 w Hbucket) as Hkeys.
  destruct (produce_frame (fst (common.List_ w1)) w1) as (Hdb' & Hbk' & Hjn').
  destruct (produce_paths (fst (common.List_ w)) w1 w) as (Hpaths & Hpanic).
  rewrite <- Hkeys in Hpaths at 1. rewrite <- Hkeys in Hpanic at 1.
  rewrite Hprod in Hpaths, Hpanic. cbn [fst snd] in Hpaths, Hpanic.
  destruct (documentService.produce (fst (common.List_ w1)) w1)
    as [[docs' panic'] wp'] eqn:Hprod'.
  cbn [fst snd] in *. subst panic'.
  assert (Hall' : Forall (fun doc => path_stored (db wp') (Path doc) = true)
                    docs').
  { rewrite Hdb', Hdb1. rewrite Forall_forall in *. intros doc' Hin.
    assert (Hp : In (Path doc') (map Path docs))
      by (rewrite <- Hpaths; apply in_map; exact Hin).
    apply in_map_iff in Hp. destruct Hp as (doc & Heq & Hdoc).
    rewrite <- Heq. apply Hall, Hdoc. }
  rewrite (Scan_of_stored w1 wp' docs' Hprod' Hall').
  cbn. rewrite Hdb', Hbk', Hjn'. auto.
Qed.

(** A bucket with one PDF: the first run inserts its row, the second run
    leaves the store as it is. *)
Lemma Scan_twice_inserts_nothing_witness :
  db (snd (documentService.Scan
             (snd (documentService.Scan (sample_world [] ["books/a.pdf"])))))
  = db (snd (documentService.Scan (sample_world [] ["books/a.pdf"]))).
Proof.
  apply (Scan_twice_inserts_nothing (sample_world [] ["books/a.pdf"])).
  vm_compute. reflexivity.
Defined.

(** The names [Scan] derives: a key in a directory. *)
Example derive_in_directory :
  documentService.derive "books/go/a.pdf" = documentService.Send "a".
Proof. reflexivity. Qed.

(** Keys that are not PDFs, among them a directory marker, are skipped. *)
Example Scan_skips_other_keys :
  map col_path
    (documents_rows
       (db (snd (documentService.Scan
                   (sample_world [] ["a.pdf"; "b.txt"; "c/"])))))
  = ["a.pdf"].
Proof. reflexivity. Qed.

(** A key is sent on only when its extension is ".pdf". *)
Lemma derive_sends_pdf_only (path name : string) :
  documentService.derive path = documentService.Send name ->
  filepath.Ext path = ".pdf".
Proof.
  unfold documentService.derive.
  destruct (String.eqb_spec (filepath.Ext path) ".pdf") as [E | _];
    [intros _; exact E | intros H; discriminate H].
Qed.

(** Every document the producer sends comes from a key with the extension
    ".pdf", has that key as its path, the type "book", and the derived name
    both as display name and as name. *)
Lemma produce_documents (keys : list string) :
  forall w : World,
    Forall (fun doc =>
              In (Path doc) keys
              /\ filepath.Ext (Path doc) = ".pdf"
              /\ documentService.derive (Path doc)
                 = documentService.Send (Name doc)
              /\ DisplayName doc = Name doc
              /\ Type_ doc = "book")
      (fst (fst (documentService.produce keys w))).
Proof.
  induction keys as [| path rest IH]; intros w; [constructor |].
  cbn [documentService.produce].
  destruct (documentService.derive path) as [| name |] eqn:Hd.
  - eapply Forall_impl; [| apply IH].
    intros doc (Hin & H). split; [right; exact Hin | exact H].
  - unfold bind, uuid_New, time_Now.
    match goal with
    | |- context [documentService.produce rest ?w0] =>
        pose proof (IH w0) as Hrest;
        destruct (documentService.produce rest w0) as [[docs panic] w1]
    end.
    cbn in *. constructor.
    + cbn. repeat split; auto. eapply derive_sends_pdf_only, Hd.
    + eapply Forall_impl; [| exact Hrest].
      intros doc (Hin & H). split; [right; exact Hin | exact H].
  - constructor.
Qed.

(** C5 (the code departs from it).  For the key "my.book.pdf" the key with
    directory and extension stripped is "my.book"; [Scan] stores the
    display name and the name "mybook", because replacing the directory "."
    removes every dot that is left. *)
Theorem Scan_name_of_dotted_key :
  strip_dir_ext "my.book.pdf" = "my.book"
  /\ documentService.derive "my.book.pdf" = documentService.Send "mybook"
  /\ map (fun r => (col_display_name r, col_name r, col_type r, col_path r))
       (documents_rows
          (db (snd (documentService.Scan
                      (sample_world [] ["my.book.pdf"])))))
     = [("mybook", "mybook", "book", "my.book.pdf")].
Proof. repeat split. Qed.

(** C10 (the code departs from it).  For the key ".pdf" the derived name is
    empty when its first byte is read: the producer panics with an index out
    of range, and so does [Scan]. *)
Theorem Scan_panics_on_bare_extension_key :
  filepath.Ext ".pdf" = ".pdf"
  /\ documentService.derive ".pdf" = documentService.IndexOutOfRange
  /\ fst (documentService.Scan (sample_world [] [".pdf"]))
     = Panicked "runtime error: index out of range [0] with length 0".
Proof. repeat split. Qed.

(** * Further properties of the code *)

(** ** Add: what a call leaves behind *)

(** An accepted file is handed on rewound to its first byte. *)
Lemma isSupported_accepted_rewinds
  (Match : list Z -> filetype.Type_ * option error) (f : File) :
  fst (isSupported Match f) = true ->
  snd (isSupported Match f) = mkFile (content f) 0.
Proof.
  destruct (Nat.lt_ge_cases (List.length (remaining f)) 261) as [Hs | Hf].
  - rewrite isSupported_short by exact Hs. intros H; discriminate H.
  - rewrite isSupported_full by exact Hf. reflexivity.
Qed.

(** The world after a successful [Add], and what made it succeed. *)
Lemma Add_success_world
  (Match : list Z -> filetype.Type_ * option error)
  (file file' : File) (doc doc' : Document) (w w' : World) :
  documentService.Add Match file doc w = ((None, file', doc'), w') ->
  doc' = mkDocument (uuid.String_ (uuid.NewRandom (rander w (drawn w))))
           (DisplayName doc) (Name doc) (Name doc) (Type_ doc)
           (Description doc) (Tags doc) (clock w (ticks w))
           (Some (clock w (ticks w)))
  /\ file' = mkFile (content file) (List.length (content file))
  /\ bucket w' = common.write (bucket w) (Name doc) (content file)
  /\ db w' = mkDB (documents_rows (db w) ++ [database.inserted_row doc' (db w)])
               (tagged_resources (db w)) None (db_now (db w))
  /\ journal w' = journal w ++ [Storage_Save (Name doc); Repo_Insert doc']
  /\ bucket_fault (bucket w) = None
  /\ db_fault (db w) = None
  /\ lookup (ID doc') w = None.
Proof.
  unfold documentService.Add, common.Save, database.Insert, lookup.
  pose proof (isSupported_accepted_rewinds Match file) as Hrew.
  destruct (isSupported Match file) as [[|] f1]; cbn [negb fst snd] in *;
    [| intros H; discriminate H].
  rewrite (Hrew eq_refl).
  unfold bind, ret, record, get_bucket, put_bucket, get_db, put_db,
    uuid_New, time_Now, io_Copy, remaining.
  cbn [bucket db content offset skipn].
  destruct (bucket_fault (bucket w)) as [e |] eqn:Hbf;
    [intros H; discriminate H |].
  cbn [bucket db journal rander drawn clock ticks].
  destruct (db_fault (db w)) as [e |] eqn:Hdf; [intros H; discriminate H |].
  match goal with
  | |- context [existsb ?p ?l] => destruct (existsb p l) eqn:Hdup
  end; [intros H; discriminate H |].
  cbn [ID set_Updated set_Created set_Path set_ID] in Hdup.
  assert (Hlook :
            find (fun r => String.eqb (col_id r)
                    (uuid.String_ (uuid.NewRandom (rander w (drawn w)))))
              (documents_rows (db w)) = None).
  { destruct (find _ _) as [r |] eqn:Hfind; [| reflexivity].
    apply find_some in Hfind. destruct Hfind as [Hin Heq].
    assert (Hex : existsb
                    (fun r0 => String.eqb (col_id r0)
                       (uuid.String_ (uuid.NewRandom (rander w (drawn w)))))
                    (documents_rows (db w)) = true)
      by (apply existsb_exists; exists r; split; assumption).
    congruence. }
  intros H. inversion H; subst.
  cbn [bucket db journal rander drawn clock ticks ID set_Updated set_Created
         set_Path set_ID DisplayName Name Path Type_ Description Tags Created
         Updated Nat.add].
  rewrite <- app_assoc. repeat split. exact Hlook.
Qed.





(** When the upload is written and the database is out of reach, [Add]
    fails with "unable to insert doc metadata" wrapped (the driver's error
    is not in the chain), and nothing takes the object back out of the
    bucket: the blob is stored, the table has no row for it. *)
Theorem Add_insert_failure_leaves_blob
  (Match : list Z -> filetype.Type_ * option error)
  (file : File) (doc : Document) (w : World) (e : error) :
  fst (isSupported Match file) = true ->
  bucket_fault (bucket w) = None ->
  db_fault (db w) = Some e ->
  fst (fst (fst (documentService.Add Match file doc w)))
  = Some (errors_Wrap (errors_New "unable to insert doc metadata")
            "failed to store data in repo")
  /\ bucket (snd (documentService.Add Match file doc w))
     = common.write (bucket w) (Name doc) (content file)
  /\ db (snd (documentService.Add Match file doc w)) = db w
  /\ exists doc',
       journal (snd (documentService.Add Match file doc w))
       = journal w ++ [Storage_Save (Name doc); Repo_Insert doc'].
Proof.
  intros Hacc Hbucket Hdb.
  unfold documentService.Add, common.Save, database.Insert.
  pose proof (isSupported_accepted_rewinds Match file Hacc) as Hrew.
  destruct (isSupported Match file) as [supported f1]. cbn [fst snd] in *.
  subst supported f1. cbn [negb].
  unfold bind, ret, record, get_bucket, put_bucket, get_db, put_db,
    uuid_New, time_Now, io_Copy, remaining.
  cbn [bucket db content offset skipn]. rewrite Hbucket.
  cbn [bucket db journal rander drawn clock ticks]. rewrite Hdb.
  cbn. rewrite <- app_assoc. repeat split. eexists. reflexivity.
Qed.

Lemma Add_insert_failure_leaves_blob_witness :
  map Key
    (objects (bucket (snd (documentService.Add filetype.Match_signatures
                             pdf_upload draft (db_down_world [] [])))))
  = ["notes.pdf"]
  /\ documents_rows
       (db (snd (documentService.Add filetype.Match_signatures pdf_upload
                   draft (db_down_world [] []))))
     = [].
Proof.
  destruct (Add_insert_failure_leaves_blob filetype.Match_signatures
              pdf_upload draft (db_down_world [] [])
              (errors_New "connection refused") eq_refl eq_refl eq_refl)
    as (_ & Hb & Hd & _).
  rewrite Hb, Hd. split; reflexivity.
Defined.

(** ** FindByID on a stored row *)

Lemma query_row_stored (d : sql_DB) (id : string) (r : Row) :
  db_fault d = None ->
  find (fun r0 => String.eqb (col_id r0) id) (documents_rows d) = Some r ->
  database.query_row_by_id d id = inr r.
Proof.
  intros Hf Hr. unfold database.query_row_by_id. rewrite Hf, Hr. reflexivity.
Qed.

(** The answer of the service for a stored row. *)
Lemma FindByID_of_row (id : string) (w : World) (r : Row) :
  db_fault (db w) = None ->
  lookup id w = Some r ->
  documentService.FindByID id w
  = (match bucket_fault (bucket w) with
     | None =>
         Returned
           (Some (set_Path (signer (bucket w) (col_path r))
                    (document_of_row (db w) r)), None)
     | Some e =>
         Returned
           (None, Some (errors_Wrap e "unable to get path from storage"))
     end, w).
Proof.
  intros Hf Hr. unfold documentService.FindByID, bind.
  rewrite repo_FindByID_returns, (query_row_stored (db w) id r Hf Hr).
  unfold common.Get, bind, ret, get_bucket.
  assert (Hp : Path (document_of_row (db w) r) = col_path r).
  { unfold document_of_row.
    destruct (negb (String.eqb (database.tag_list (db w) (col_id r)) ""));
      reflexivity. }
  rewrite Hp. destruct (bucket_fault (bucket w)); reflexivity.
Qed.

(** For a stored row, [FindByID] returns the columns of the row with one
    change: the path is the signed URL that the bucket issues for the stored
    path, never the stored path itself.  When the bucket cannot issue the
    URL the call fails with the wrapped storage error although the row was
    found.  In both cases the world is left as it was. *)
Theorem FindByID_stored_row_signs_path (id : string) (w : World) (r : Row) :
  db_fault (db w) = None ->
  lookup id w = Some r ->
  snd (documentService.FindByID id w) = w
  /\ (forall e,
         bucket_fault (bucket w) = Some e ->
         fst (documentService.FindByID id w)
         = Returned
             (None, Some (errors_Wrap e "unable to get path from storage")))
  /\ (bucket_fault (bucket w) = None ->
      exists doc,
        fst (documentService.FindByID id w) = Returned (Some doc, None)
        /\ ID doc = id
        /\ DisplayName doc = col_display_name r
        /\ Name doc = col_name r
        /\ Type_ doc = col_type r
        /\ Description doc = col_description r
        /\ Created doc = col_created r
        /\ Updated doc = col_updated r
        /\ Path doc = signer (bucket w) (col_path r)).
Proof.
  intros Hf Hr. rewrite (FindByID_of_row id w r Hf Hr).
  assert (Hid : col_id r = id).
  { unfold lookup in Hr. apply find_some in Hr. destruct Hr as [_ Hr].
    apply String.eqb_eq in Hr. exact Hr. }
  split; [reflexivity |]. split.
  - intros e He. rewrite He. reflexivity.
  - intros Hb. rewrite Hb. eexists. split; [reflexivity |].
    unfold document_of_row.
    destruct (negb (String.eqb (database.tag_list (db w) (col_id r)) ""));
      cbn; repeat split; exact Hid.
Qed.

Lemma FindByID_stored_row_signs_path_witness :
  exists doc,
    fst (documentService.FindByID "id-1"
           (sample_world [notes_row] ["notes.pdf"]))
    = Returned (Some doc, None)
    /\ DisplayName doc = "Notes"
    /\ Path doc = "https://bucket.example/notes.pdf?signature".
Proof.
  destruct (FindByID_stored_row_signs_path "id-1"
              (sample_world [notes_row] ["notes.pdf"]) notes_row
              eq_refl eq_refl) as (_ & _ & H).
  destruct (H eq_refl) as (doc & Hd & _ & Hn & _ & _ & _ & _ & _ & Hp).
  exists doc. repeat split; assumption.
Defined.

Lemma find_app_rows (p : Row -> bool) (l l' : list Row) :
  find p (l ++ l')
  = match find p l with
    | Some x => Some x
    | None => find p l'
    end.
Proof.
  induction l as [| x l IH]; [reflexivity |].
  simpl. destruct (p x); [reflexivity | exact IH].
Qed.

(** Insert and look up: after a successful [Add], [FindByID] with the new
    identifier returns the identifier, display name, name, type and
    description of the document that [Add] filled in, and as path the signed
    URL of the name under which the upload was stored. *)
Theorem Add_then_FindByID
  (Match : list Z -> filetype.Type_ * option error)
  (file file' : File) (doc doc' : Document) (w w' : World) :
  documentService.Add Match file doc w = ((None, file', doc'), w') ->
  exists found,
    documentService.FindByID (ID doc') w' = (Returned (Some found, None), w')
    /\ ID found = ID doc'
    /\ DisplayName found = DisplayName doc
    /\ Name found = Name doc
    /\ Type_ found = Type_ doc
    /\ Description found = Description doc
    /\ Path found = signer (bucket w) (Name doc).
Proof.
  intros H.
  destruct (Add_success_world Match file file' doc doc' w w' H)
    as (Hd & _ & Hb & Hdb & _ & Hbf & Hdf & Hnew).
  assert (Hlook : lookup (ID doc') w' = Some (database.inserted_row doc' (db w))).
  { unfold lookup in *. rewrite Hdb. cbn [documents_rows].
    rewrite find_app_rows, Hnew. cbn. rewrite String.eqb_refl. reflexivity. }
  assert (Hf' : db_fault (db w') = None) by (rewrite Hdb; reflexivity).
  rewrite (FindByID_of_row (ID doc') w' _ Hf' Hlook).
  rewrite Hb. cbn [bucket_fault common.write signer]. rewrite Hbf.
  eexists. split; [reflexivity |].
  unfold document_of_row.
  destruct (negb (String.eqb _ "")); rewrite Hd; cbn; repeat split.
Qed.

Lemma Add_then_FindByID_witness :
  exists found,
    fst (documentService.FindByID "00000000-0000-4000-8000-000000000000"
           (snd (documentService.Add filetype.Match_signatures pdf_upload
                   draft (sample_world [] []))))
    = Returned (Some found, None)
    /\ DisplayName found = "Notes"
    /\ Path found = "https://bucket.example/notes.pdf?signature".
Proof.
  destruct (Add_then_FindByID filetype.Match_signatures pdf_upload
              (snd (fst (fst (documentService.Add filetype.Match_signatures
                                pdf_upload draft (sample_world [] [])))))
              draft
              (snd (fst (documentService.Add filetype.Match_signatures
                           pdf_upload draft (sample_world [] []))))
              (sample_world [] [])
              (snd (documentService.Add filetype.Match_signatures pdf_upload
                      draft (sample_world [] []))))
    as (found & Hf & _ & Hn & _ & _ & _ & Hp).
  - vm_compute. reflexivity.
  - exists found. split; [| split].
    + change "00000000-0000-4000-8000-000000000000"
        with (ID (snd (fst (documentService.Add filetype.Match_signatures
                              pdf_upload draft (sample_world [] []))))).
      rewrite Hf. reflexivity.
    + exact Hn.
    + exact Hp.
Defined.

(** ** Delete *)

Lemma find_filter_out (p : Row -> bool) (l : list Row) :
  find p (filter (fun r => negb (p r)) l) = None.
Proof.
  induction l as [| x l IH]; [reflexivity |].
  simpl. destruct (p x) eqn:E; simpl; [exact IH | rewrite E; exact IH].
Qed.

Lemma find_filter_kept (p keep : Row -> bool) (l : list Row) :
  (forall x, p x = true -> keep x = true) ->
  find p (filter keep l) = find p l.
Proof.
  intros Hk. induction l as [| x l IH]; [reflexivity |].
  simpl. destruct (keep x) eqn:E; simpl.
  - destruct (p x); [reflexivity | exact IH].
  - destruct (p x) eqn:Ep; [| exact IH].
    apply Hk in Ep. congruence.
Qed.

(** [Delete] removes the metadata only.  When it returns nil no row is left
    under the identifier and the rows under other identifiers are as they
    were; on a broken connection it fails with "unable to delete" and the
    table is as it was; in every case the bucket, and with it the blob of
    the document, is left alone. *)
Theorem Delete_removes_row_only (id : string) (w : World) :
  (fst (documentService.Delete id w) = None ->
   lookup id (snd (documentService.Delete id w)) = None
   /\ forall id', id' <> id ->
                  lookup id' (snd (documentService.Delete id w))
                  = lookup id' w)
  /\ (forall e, db_fault (db w) = Some e ->
                fst (documentService.Delete id w)
                = Some (errors_New "unable to delete")
                /\ db (snd (documentService.Delete id w)) = db w)
  /\ bucket (snd (documentService.Delete id w)) = bucket w.
Proof.
  unfold documentService.Delete, database.Delete, lookup,
    bind, ret, record, get_db, put_db.
  cbn [db]. destruct (db_fault (db w)) as [e0 |] eqn:Hf; cbn.
  - repeat split; try discriminate; auto.
  - repeat split; try congruence.
    + apply (find_filter_out (fun r => String.eqb (col_id r) id)).
    + intros id' Hneq. apply find_filter_kept.
      intros x Hx. apply String.eqb_eq in Hx.
      destruct (String.eqb_spec (col_id x) id); [congruence | reflexivity].
Qed.

Lemma Delete_removes_row_only_witness :
  lookup "00000000-0000-4000-8000-000000000000"
    (snd (documentService.Delete "00000000-0000-4000-8000-000000000000"
            (sample_world [notes_row; stored_row] ["go.pdf"])))
  = None
  /\ lookup "id-1"
       (snd (documentService.Delete "00000000-0000-4000-8000-000000000000"
               (sample_world [notes_row; stored_row] ["go.pdf"])))
     = Some notes_row.
Proof.
  destruct (Delete_removes_row_only "00000000-0000-4000-8000-000000000000"
              (sample_world [notes_row; stored_row] ["go.pdf"]))
    as (H & _ & _).
  destruct (H eq_refl) as (Hgone & Hkept).
  split; [exact Hgone |].
  rewrite Hkept; [reflexivity | intros E; discriminate E].
Defined.

(** ** UpdateFields: the merge that is written *)

(** When [UpdateFields] returns nil for a stored row, each of description,
    display name and type is the value of the request where that is not
    empty and the stored value where it is (so no field can be cleared); the
    returned document carries the merge; the row holds it, with the time of
    the call in [updated] and its name, path and creation time unchanged;
    and [UpdateDocument] was called once. *)
Theorem UpdateFields_applies_non_empty_fields
  (id : string) (updatedDoc entity : Document) (w w' : World) (r : Row) :
  lookup id w = Some r ->
  documentService.UpdateFields id updatedDoc w = ((entity, None), w') ->
  ID entity = id
  /\ Description entity
     = (if String.eqb (Description updatedDoc) "" then col_description r
        else Description updatedDoc)
  /\ DisplayName entity
     = (if String.eqb (DisplayName updatedDoc) "" then col_display_name r
        else DisplayName updatedDoc)
  /\ Type_ entity
     = (if String.eqb (Type_ updatedDoc) "" then col_type r
        else Type_ updatedDoc)
  /\ lookup id w'
     = Some (mkRow id (Description entity) (DisplayName entity) (col_name r)
               (Type_ entity) (col_path r) (col_created r)
               (Some (clock w (ticks w))))
  /\ journal w' = journal w ++ [Repo_UpdateDocument entity].
Proof.
  intros Hr.
  assert (Hid : col_id r = id).
  { unfold lookup in Hr. apply find_some in Hr. destruct Hr as [_ Hr].
    apply String.eqb_eq in Hr. exact Hr. }
  unfold documentService.UpdateFields, bind.
  rewrite repo_FindByID_returns.
  destruct (db_fault (db w)) as [e |] eqn:Hf.
  - (* a broken connection never lets the call return nil *)
    unfold database.query_row_by_id. rewrite Hf.
    destruct (documentService.merge zeroDocument updatedDoc) as [e' | m];
      [intros H; discriminate H |].
    unfold database.UpdateDocument, bind, ret, time_Now, record, get_db.
    cbn [db]. rewrite Hf. intros H; discriminate H.
  - rewrite (query_row_stored (db w) id r Hf Hr).
    destruct (document_of_row_fields (db w) r) as (Ei & En & Et & Ed).
    destruct (documentService.merge (document_of_row (db w) r) updatedDoc)
      as [e' | m] eqn:Hm; [intros H; discriminate H |].
    assert (Hmerged :
              ID m = id
              /\ Description m
                 = (if String.eqb (Description updatedDoc) ""
                    then col_description r else Description updatedDoc)
              /\ DisplayName m
                 = (if String.eqb (DisplayName updatedDoc) ""
                    then col_display_name r else DisplayName updatedDoc)
              /\ Type_ m
                 = (if String.eqb (Type_ updatedDoc) ""
                    then col_type r else Type_ updatedDoc)).
    { unfold documentService.merge in Hm.
      destruct (String.eqb (Description updatedDoc) "");
        destruct (String.eqb (DisplayName updatedDoc) "");
        destruct (String.eqb (Type_ updatedDoc) ""); cbn [negb] in Hm;
        try (destruct (String.eqb (Type_ updatedDoc) "book"
                       || String.eqb (Type_ updatedDoc) "paper");
             [| discriminate Hm]);
        inversion Hm; subst m; cbn; repeat split; congruence. }
    destruct Hmerged as (Hi & Hde & Hdn & Hty).
    unfold database.UpdateDocument, bind, ret, time_Now, record, get_db,
      put_db.
    cbn [db]. rewrite Hf. intros H. inversion H; subst entity w'. clear H.
    unfold lookup. cbn [db documents_rows journal].
    repeat split; try assumption.
    rewrite find_map_preserving.
    + unfold lookup in Hr. rewrite Hr. cbn [option_map].
      rewrite Hi, Hid, String.eqb_refl. unfold database.update_row.
      rewrite Hid. reflexivity.
    + intros x. destruct (String.eqb (col_id x) (ID m)); reflexivity.
Qed.

Lemma UpdateFields_applies_non_empty_fields_witness :
  lookup "id-1"
    (snd (documentService.UpdateFields "id-1"
            (mkDocument "" "Field notes" "" "" "book" "" [] zeroTime None)
            (sample_world [notes_row] ["notes.pdf"])))
  = Some (mkRow "id-1" "old text" "Field notes" "notes.pdf" "book"
            "notes.pdf" 5%Z (Some 1000%Z)).
Proof.
  destruct (UpdateFields_applies_non_empty_fields "id-1"
              (mkDocument "" "Field notes" "" "" "book" "" [] zeroTime None)
              (mkDocument "id-1" "Field notes" "notes.pdf" "notes.pdf" "book"
                 "old text" [] 5%Z None)
              (sample_world [notes_row] ["notes.pdf"])
              (snd (documentService.UpdateFields "id-1"
                      (mkDocument "" "Field notes" "" "" "book" "" [] zeroTime
                         None)
                      (sample_world [notes_row] ["notes.pdf"])))
              notes_row eq_refl eq_refl)
    as (_ & _ & _ & _ & H & _).
  exact H.
Defined.

(** ** UpsertStream: what it adds *)

Lemma not_stored_not_in (d : sql_DB) (p : string) :
  db_fault d = None ->
  path_stored d p = false ->
  ~ In p (map col_path (documents_rows d)).
Proof.
  unfold path_stored. intros Hf. rewrite Hf.
  induction (documents_rows d) as [| x l IH]; intros Hs Hin; [exact Hin |].
  cbn [filter] in Hs. cbn [map In] in Hin.
  destruct (String.eqb_spec (col_path x) p) as [E | E].
  - cbn in Hs. discriminate Hs.
  - destruct Hin as [Hx | Hl]; [congruence | exact (IH Hs Hl)].
Qed.

(** One round of the loop, by what the existence check and [Insert] say. *)
Lemma upsert_loop_cons (doc : Document) (rest : list Document)
  (count : nat) (w : World) :
  database.upsert_loop (doc :: rest) count w
  = if path_stored (db w) (Path doc)
    then database.upsert_loop rest count w
    else
      match fst (database.Insert doc w) with
      | Some _ =>
          ((count, Some (errors_New "unable to upsert document")),
           snd (database.Insert doc w))
      | None => database.upsert_loop rest (S count) (snd (database.Insert doc w))
      end.
Proof.
  cbn [database.upsert_loop]. unfold bind at 1.
  rewrite existsByPath_returns.
  destruct (path_stored (db w) (Path doc)); [reflexivity |].
  unfold bind. destruct (database.Insert doc w) as [[e |] wi]; reflexivity.
Qed.

(** [Insert] fails without a trace in the database, or appends its row. *)
Lemma Insert_cases (doc : Document) (w : World) :
  (fst (database.Insert doc w)
   = Some (errors_New "unable to insert doc metadata")
   /\ db (snd (database.Insert doc w)) = db w
   /\ bucket (snd (database.Insert doc w)) = bucket w)
  \/ (fst (database.Insert doc w) = None
      /\ db_fault (db w) = None
      /\ db (snd (database.Insert doc w))
         = mkDB (documents_rows (db w) ++ [database.inserted_row doc (db w)])
             (tagged_resources (db w)) (db_fault (db w)) (db_now (db w))
      /\ bucket (snd (database.Insert doc w)) = bucket w
      /\ journal (snd (database.Insert doc w))
         = journal w ++ [Repo_Insert doc]).
Proof.
  unfold database.Insert, bind, ret, record, get_db, put_db. cbn [db].
  destruct (db_fault (db w)) as [e |] eqn:Hf; [left; cbn; auto |].
  destruct (existsb _ _); [left; cbn; auto |].
  right. cbn. auto.
Qed.

(** The documents the loop inserts: a run appends one row per inserted
    document, in order, and touches nothing else in the database; the
    counter goes up by the number of rows; paths that were pairwise
    different stay so; and a run without an error journals exactly those
    calls of [Insert]. *)
Lemma upsert_loop_appends (input : list Document) :
  forall (count : nat) (w : World),
  exists inserted : list Document,
    incl inserted input
    /\ db (snd (database.upsert_loop input count w))
       = mkDB (documents_rows (db w)
                 ++ map (fun doc => database.inserted_row doc (db w)) inserted)
           (tagged_resources (db w)) (db_fault (db w)) (db_now (db w))
    /\ fst (fst (database.upsert_loop input count w))
       = count + List.length inserted
    /\ bucket (snd (database.upsert_loop input count w)) = bucket w
    /\ (NoDup (map col_path (documents_rows (db w))) ->
        NoDup (map col_path
                 (documents_rows
                    (db (snd (database.upsert_loop input count w))))))
    /\ (snd (fst (database.upsert_loop input count w)) = None ->
        journal (snd (database.upsert_loop input count w))
        = journal w ++ map Repo_Insert inserted).
Proof.
  induction input as [| doc rest IH]; intros count w.
  - exists []. cbn. rewrite !app_nil_r, Nat.add_0_r.
    destruct (db w); repeat split; auto. apply incl_refl.
  - rewrite upsert_loop_cons.
    destruct (path_stored (db w) (Path doc)) eqn:Hknown.
    + destruct (IH count w) as (ins & Hin & Hdb & Hc & Hb & Hnd & Hj).
      exists ins. repeat split; auto. apply incl_tl, Hin.
    + destruct (Insert_cases doc w)
        as [(He & Hd & Hbk) | (He & Hf & Hd & Hbk & Hjn)]; rewrite He.
      * exists []. cbn [fst snd map List.length].
        rewrite Hd, Hbk, app_nil_r, Nat.add_0_r.
        destruct (db w); repeat split; auto.
        -- apply incl_nil_l.
        -- intros H; discriminate H.
      * destruct (IH (S count) (snd (database.Insert doc w)))
          as (ins & Hin & Hdb & Hc & Hb & Hnd & Hj).
        rewrite Hd in Hdb, Hnd.
        cbn [documents_rows tagged_resources db_fault db_now] in Hdb, Hnd.
        exists (doc :: ins). repeat split.
        -- intros x [Hx | Hx]; [left; exact Hx | right; apply Hin, Hx].
        -- rewrite Hdb. cbn [map]. rewrite <- app_assoc. reflexivity.
        -- rewrite Hc. cbn [List.length]. lia.
        -- congruence.
        -- intros Hnodup. apply Hnd.
           rewrite map_app. cbn [map database.inserted_row col_path].
           apply NoDup_app; [exact Hnodup | repeat constructor; auto |].
           intros p Hp [Hq | []]. subst p.
           exact (not_stored_not_in (db w) (Path doc) Hf Hknown Hp).
        -- intros Hnil. rewrite (Hj Hnil), Hjn. cbn [map].
           rewrite <- app_assoc. reflexivity.
Qed.



(** On a broken connection the existence check answers "not stored" and
    reports nothing; [UpsertStream] then fails at its first document with
    "unable to upsert document", after the one call of [Insert], and looks
    at no later document. *)
Theorem UpsertStream_stops_at_first_failure
  (doc : Document) (rest : list Document) (w : World) (e : error) :
  db_fault (db w) = Some e ->
  database.existsByPath (Path doc) w = ((false, None), w)
  /\ database.UpsertStream (doc :: rest) w
     = (Some (errors_New "unable to upsert document"),
        mkWorld (db w) (bucket w) (rander w) (drawn w) (clock w) (ticks w)
          (journal w ++ [Repo_Insert doc])).
Proof.
  intros Hf.
  assert (Hs : path_stored (db w) (Path doc) = false)
    by (unfold path_stored; rewrite Hf; reflexivity).
  split; [rewrite existsByPath_returns, Hs; reflexivity |].
  unfold database.UpsertStream, bind. rewrite upsert_loop_cons, Hs.
  unfold database.Insert, bind, ret, record, get_db. cbn [db].
  rewrite Hf. reflexivity.
Qed.

Lemma UpsertStream_stops_at_first_failure_witness :
  fst (database.UpsertStream
         [mkDocument "a" "A" "a" "a.pdf" "book" "" [] 7%Z None;
          mkDocument "b" "B" "b" "b.pdf" "book" "" [] 8%Z None]
         (db_down_world [] []))
  = Some (errors_New "unable to upsert document").
Proof.
  rewrite (proj2 (UpsertStream_stops_at_first_failure
                    (mkDocument "a" "A" "a" "a.pdf" "book" "" [] 7%Z None)
                    [mkDocument "b" "B" "b" "b.pdf" "book" "" [] 8%Z None]
                    (db_down_world [] []) (errors_New "connection refused")
                    eq_refl)).
  reflexivity.
Defined.

(** ** Scan: what a run can and cannot do *)

(** The database and the bucket after [Scan], whatever its outcome, are
    those after the loop over the documents the producer sent. *)
Lemma Scan_state (w : World) :
  db (snd (documentService.Scan w))
  = db (snd (database.upsert_loop
               (fst (fst (documentService.produce (fst (common.List_ w)) w)))
               0 (snd (documentService.produce (fst (common.List_ w)) w))))
  /\ bucket (snd (documentService.Scan w))
     = bucket (snd (database.upsert_loop
                 (fst (fst (documentService.produce (fst (common.List_ w)) w)))
                 0 (snd (documentService.produce (fst (common.List_ w)) w)))).
Proof.
  remember (documentService.Scan w) as r eqn:Hr.
  unfold documentService.Scan in Hr. unfold bind at 1 in Hr.
  rewrite List_returns in Hr. unfold bind at 1 in Hr.
  destruct (documentService.produce (fst (common.List_ w)) w)
    as [[docs [msg |]] wp]; cbn [fst snd].
  - unfold bind, ret in Hr.
    destruct (database.upsert_loop docs 0 wp) as [[c [e |]] wl]; subst r;
      auto.
  - unfold database.UpsertStream, bind, ret, record in Hr.
    destruct (database.upsert_loop docs 0 wp) as [[c [e |]] wl]; subst r;
      auto.
Qed.

(** Whatever its outcome (nil, an error, a panic), [Scan] leaves the bucket
    as it was and only appends to the table: no stored row is removed or
    changed, nothing is rolled back; every row it adds has the type "book",
    one value as display name and as name, and as path a listed key whose
    extension is ".pdf"; and paths that were pairwise different before the
    run are pairwise different after it. *)
Theorem Scan_only_appends_books (w : World) :
  bucket (snd (documentService.Scan w)) = bucket w
  /\ (exists added : list Row,
         documents_rows (db (snd (documentService.Scan w)))
         = documents_rows (db w) ++ added
         /\ Forall (fun row =>
                      col_type row = "book"
                      /\ col_display_name row = col_name row
                      /\ filepath.Ext (col_path row) = ".pdf"
                      /\ In (col_path row) (fst (common.List_ w)))
              added)
  /\ (NoDup (map col_path (documents_rows (db w))) ->
      NoDup (map col_path (documents_rows (db (snd (documentService.Scan w)))))).
Proof.
  destruct (Scan_state w) as (Hdb & Hbk). rewrite Hdb, Hbk.
  destruct (produce_frame (fst (common.List_ w)) w) as (Hpd & Hpb & _).
  pose proof (produce_documents (fst (common.List_ w)) w) as Hdocs.
  destruct (upsert_loop_appends
              (fst (fst (documentService.produce (fst (common.List_ w)) w)))
              0 (snd (documentService.produce (fst (common.List_ w)) w)))
    as (ins & Hin & Hd & _ & Hb & Hnd & _).
  rewrite Hpd in Hd, Hnd. rewrite Hb, Hpb.
  split; [reflexivity |]. split; [| exact Hnd].
  rewrite Hd. cbn [documents_rows]. eexists. split; [reflexivity |].
  rewrite Forall_forall in *. intros row Hrow.
  apply in_map_iff in Hrow. destruct Hrow as (doc & <- & Hdoc).
  destruct (Hdocs doc (Hin doc Hdoc)) as (Hk & He & _ & Hn & Ht).
  cbn. auto.
Qed.

(** When the bucket cannot be listed, [Scan] fails nothing: it returns nil
    and logs that 0 documents were added. *)
Theorem Scan_unlisted_bucket_reports_success (w : World) (e : error) :
  bucket_fault (bucket w) = Some e ->
  documentService.Scan w
  = (Returned None,
     mkWorld (db w) (bucket w) (rander w) (drawn w) (clock w) (ticks w)
       (journal w ++ [Logged_documents_added 0])).
Proof.
  intros Hf.
  unfold documentService.Scan, common.List_, bind, ret, get_bucket.
  rewrite Hf. reflexivity.
Qed.

Lemma Scan_unlisted_bucket_reports_success_witness :
  fst (documentService.Scan (bucket_down_world [notes_row])) = Returned None.
Proof.
  rewrite (Scan_unlisted_bucket_reports_success
             (bucket_down_world [notes_row]) (errors_New "connection refused")
             eq_refl).
  reflexivity.
Defined.

Lemma path_stored_row (d : sql_DB) (p : string) :
  path_stored d p = true ->
  db_fault d = None
  /\ exists row, In row (documents_rows d) /\ col_path row = p.
Proof.
  unfold path_stored. destruct (db_fault d); [intros H; discriminate H |].
  intros H. split; [reflexivity |].
  destruct (filter (fun r => String.eqb (col_path r) p) (documents_rows d))
    as [| row l] eqn:Hfil; [discriminate H |].
  assert (Hin : In row (filter (fun r => String.eqb (col_path r) p)
                          (documents_rows d)))
    by (rewrite Hfil; left; reflexivity).
  apply filter_In in Hin. destruct Hin as [Hin Heq].
  exists row. split; [exact Hin | apply String.eqb_eq, Heq].
Qed.

(** A key is skipped only when its extension is not ".pdf". *)
Lemma derive_skips_others_only (path : string) :
  documentService.derive path = documentService.Skip ->
  filepath.Ext path <> ".pdf".
Proof.
  unfold documentService.derive.
  destruct (String.eqb_spec (filepath.Ext path) ".pdf") as [E | E];
    [| intros _; exact E].
  cbn [negb].
  destruct (strings.ReplaceAll
              (strings.ReplaceAll path (filepath.Ext path) "")
              (filepath.Dir path) "") as [| c tail];
    [intros H; discriminate H |].
  destruct (Ascii.eqb c "/"%char); intros H; discriminate H.
Qed.

(** A producer that does not panic sends a document for every key whose
    extension is ".pdf". *)
Lemma produce_sends_every_pdf (keys : list string) :
  forall w : World,
    snd (fst (documentService.produce keys w)) = None ->
    forall key, In key keys -> filepath.Ext key = ".pdf" ->
                In key (map Path (fst (fst (documentService.produce keys w)))).
Proof.
  induction keys as [| path rest IH]; intros w Hpanic key Hin Hext;
    [destruct Hin |].
  cbn [documentService.produce] in *.
  destruct (documentService.derive path) as [| name |] eqn:Hd.
  - destruct Hin as [-> | Hin]; [| exact (IH w Hpanic key Hin Hext)].
    exfalso. exact (derive_skips_others_only _ Hd Hext).
  - unfold bind, uuid_New, time_Now in *.
    match goal with
    | |- context [documentService.produce rest ?w0] =>
        pose proof (IH w0) as IH0;
        destruct (documentService.produce rest w0) as [[docs panic] w1]
    end.
    cbn in *. destruct Hin as [-> | Hin]; [left; reflexivity |].
    right. exact (IH0 Hpanic key Hin Hext).
  - discriminate Hpanic.
Qed.

(** Reconciliation: after a [Scan] that returned nil with the bucket in
    reach, every object of the bucket that is not a directory and whose key
    has the extension ".pdf" has a row with that key as its path. *)
Theorem Scan_stores_every_pdf_key (w w1 : World) (o : Object) :
  documentService.Scan w = (Returned None, w1) ->
  bucket_fault (bucket w) = None ->
  In o (objects (bucket w)) ->
  IsDir o = false ->
  filepath.Ext (Key o) = ".pdf" ->
  exists row, In row (documents_rows (db w1)) /\ col_path row = Key o.
Proof.
  intros H Hb Hin Hdir Hext.
  destruct (Scan_returned_nil w w1 H)
    as (docs & wp & count & wl & Hprod & Hloop & Hw1).
  destruct (upsert_loop_stores_paths docs _ _ _ _ Hloop) as (_ & _ & Hall).
  assert (Hkey : In (Key o) (fst (common.List_ w))).
  { unfold common.List_, bind, ret, get_bucket. rewrite Hb. cbn [fst].
    apply in_map, filter_In. split; [exact Hin | rewrite Hdir; reflexivity]. }
  pose proof (produce_sends_every_pdf (fst (common.List_ w)) w) as Hsend.
  rewrite Hprod in Hsend. cbn [fst snd] in Hsend.
  specialize (Hsend eq_refl (Key o) Hkey Hext).
  apply in_map_iff in Hsend. destruct Hsend as (doc & Hp & Hdoc).
  rewrite Forall_forall in Hall. specialize (Hall doc Hdoc).
  rewrite Hp in Hall. subst w1. cbn [db snd record].
  apply path_stored_row in Hall. destruct Hall as [_ Hrow]. exact Hrow.
Qed.

Lemma Scan_stores_every_pdf_key_witness :
  exists row,
    In row (documents_rows
              (db (snd (documentService.Scan
                          (sample_world [] ["books/a.pdf"; "b.txt"])))))
    /\ col_path row = "books/a.pdf".
Proof.
  apply (Scan_stores_every_pdf_key
           (sample_world [] ["books/a.pdf"; "b.txt"])
           (snd (documentService.Scan
                   (sample_world [] ["books/a.pdf"; "b.txt"])))
           (mkObject "books/a.pdf" false [])).
  - vm_compute. reflexivity.
  - reflexivity.
  - left. reflexivity.
  - reflexivity.
  - reflexivity.
Defined.

(** ** Scan: the keys for which the derived name is the base name *)

Local Open Scope string_scope.

Lemma ext_scan_pdf_suffix (s : string) :
  filepath.ext_scan (s ++ ".pdf") = Some ".pdf".
Proof.
  induction s as [| c s IH]; [reflexivity |].
  cbn [append filepath.ext_scan]. rewrite IH. reflexivity.
Qed.

Lemma prefix_cons_other (a b : ascii) (s t : string) :
  Ascii.eqb b a = false -> prefix (String a s) (String b t) = false.
Proof.
  intros H. cbn [prefix]. destruct (ascii_dec a b) as [E | E];
    [| reflexivity].
  subst b. rewrite Ascii.eqb_refl in H. discriminate H.
Qed.

Lemma prefix_append (s t : string) : prefix s (s ++ t) = true.
Proof.
  induction s as [| c s IH]; [destruct t; reflexivity |].
  cbn [append prefix]. destruct (ascii_dec c c) as [_ | N];
    [exact IH | exfalso; apply N; reflexivity].
Qed.

Lemma string_append_assoc (s t u : string) : (s ++ t) ++ u = s ++ (t ++ u).
Proof.
  induction s as [| c s IH]; [reflexivity |].
  cbn [append]. rewrite IH. reflexivity.
Qed.

Lemma dotfree_append (s t : string) :
  dotfree (s ++ t) = dotfree s && dotfree t.
Proof.
  induction s as [| c s IH]; [reflexivity |].
  cbn [append dotfree]. rewrite IH, andb_assoc. reflexivity.
Qed.

Lemma has_separator_append (s t : string) :
  filepath.has_separator (s ++ t)
  = filepath.has_separator s || filepath.has_separator t.
Proof.
  induction s as [| c s IH]; [reflexivity |].
  cbn [append filepath.has_separator]. rewrite IH, orb_assoc. reflexivity.
Qed.

(** Removing ".pdf" from a name without dots that ends in ".pdf". *)
Lemma ReplaceAll_extension (s : string) :
  dotfree s = true -> strings.ReplaceAll (s ++ ".pdf") ".pdf" "" = s.
Proof.
  unfold strings.ReplaceAll.
  induction s as [| c s IH]; intros Hd; [reflexivity |].
  cbn [dotfree] in Hd. apply andb_true_iff in Hd. destruct Hd as [Hc Hs].
  apply negb_true_iff in Hc.
  cbn [append strings.replace_from].
  rewrite (prefix_cons_other "."%char c "pdf" (s ++ ".pdf") Hc).
  rewrite (IH Hs). reflexivity.
Qed.

(** Dropping the bytes of an occurrence. *)
Lemma replace_from_skip (old new s t : string) :
  strings.replace_from old new (s ++ t) (length s)
  = strings.replace_from old new t 0.
Proof.
  induction s as [| c s IH]; [reflexivity |].
  cbn [append length strings.replace_from]. exact IH.
Qed.

(** Where [old] does not occur, nothing is replaced. *)
Lemma replace_from_absent (old new s : string) :
  old <> "" -> occurs old s = false ->
  strings.replace_from old new s 0 = s.
Proof.
  intros Hold. destruct old as [| a old']; [congruence |].
  induction s as [| c s IH]; intros Hocc; [reflexivity |].
  cbn [occurs] in Hocc. apply orb_false_iff in Hocc.
  destruct Hocc as [Hp Hrest].
  cbn [strings.replace_from]. rewrite Hp, (IH Hrest). reflexivity.
Qed.

(** A leading occurrence is replaced and the scan goes on behind it. *)
Lemma ReplaceAll_leading (old new t : string) :
  old <> "" ->
  strings.ReplaceAll (old ++ t) old new
  = new ++ strings.replace_from old new t 0.
Proof.
  intros Hold. destruct old as [| a old']; [congruence |].
  unfold strings.ReplaceAll.
  change (String a old' ++ t) with (String a (old' ++ t)).
  cbn [strings.replace_from].
  pose proof (prefix_append (String a old') t) as Hp.
  change (String a old' ++ t) with (String a (old' ++ t)) in Hp.
  rewrite Hp.
  replace (length (String a old') - 1) with (length old')
    by (cbn [length]; lia).
  rewrite replace_from_skip. reflexivity.
Qed.

Lemma dotfree_no_dot (s : string) : dotfree s = true -> occurs "." s = false.
Proof.
  induction s as [| c s IH]; intros Hd; [reflexivity |].
  cbn [dotfree] in Hd. apply andb_true_iff in Hd. destruct Hd as [Hc Hs].
  apply negb_true_iff in Hc. cbn [occurs].
  rewrite (prefix_cons_other "."%char c "" s Hc), (IH Hs). reflexivity.
Qed.

Lemma upto_last_separator_none (s : string) :
  filepath.has_separator s = false -> filepath.upto_last_separator s = "".
Proof.
  destruct s as [| c s]; [reflexivity |].
  cbn [filepath.has_separator filepath.upto_last_separator].
  intros H. apply orb_false_iff in H. destruct H as [Hc Hs].
  rewrite Hs, Hc. reflexivity.
Qed.

Lemma upto_last_separator_directory (dir rest : string) :
  filepath.has_separator rest = false ->
  filepath.upto_last_separator (dir ++ "/" ++ rest) = dir ++ "/".
Proof.
  intros Hrest. induction dir as [| c dir IH].
  - cbn [append filepath.upto_last_separator]. rewrite Hrest. reflexivity.
  - cbn [append filepath.upto_last_separator].
    rewrite has_separator_append. cbn [append filepath.has_separator].
    replace (filepath.IsPathSeparator "/") with true by reflexivity.
    rewrite orb_true_l, orb_true_r. rewrite <- IH. reflexivity.
Qed.

(** A key with no directory and no dot besides its extension: the derived
    name is the key without ".pdf". *)
Theorem derive_flat_key (base : string) :
  base <> "" ->
  dotfree base = true ->
  sepfree base = true ->
  documentService.derive (base ++ ".pdf") = documentService.Send base.
Proof.
  intros Hne Hdot Hsep. unfold sepfree in Hsep.
  apply negb_true_iff in Hsep.
  unfold documentService.derive.
  assert (Hext : filepath.Ext (base ++ ".pdf") = ".pdf")
    by (unfold filepath.Ext; rewrite ext_scan_pdf_suffix; reflexivity).
  rewrite Hext. cbn [String.eqb Ascii.eqb Bool.eqb negb].
  change (String.eqb ".pdf" ".pdf") with true. cbn [negb].
  rewrite (ReplaceAll_extension base Hdot).
  assert (Hdir : filepath.Dir (base ++ ".pdf") = ".").
  { unfold filepath.Dir. rewrite upto_last_separator_none; [reflexivity |].
    rewrite has_separator_append, Hsep. reflexivity. }
  rewrite Hdir. unfold strings.ReplaceAll.
  rewrite (replace_from_absent "." "" base);
    [| discriminate | apply dotfree_no_dot, Hdot].
  destruct base as [| c tail]; [congruence |].
  cbn [filepath.has_separator] in Hsep. apply orb_false_iff in Hsep.
  destruct Hsep as [Hc _]. unfold filepath.IsPathSeparator in Hc.
  unfold filepath.Separator in Hc. rewrite Hc. reflexivity.
Qed.

Lemma derive_flat_key_witness :
  documentService.derive "notes.pdf" = documentService.Send "notes".
Proof.
  apply (derive_flat_key "notes"); [intros H; discriminate H | | ];
    reflexivity.
Defined.

(** A key in a directory: when the directory is in clean form, neither the
    directory nor the base name holds a dot, the base name holds no
    separator, and the directory does not occur in "/" followed by the base
    name, the derived name is the base name. *)
Theorem derive_key_in_directory (dir base : string) :
  dir <> "" ->
  base <> "" ->
  filepath.Clean (dir ++ "/") = dir ->
  dotfree dir = true ->
  dotfree base = true ->
  sepfree base = true ->
  occurs dir ("/" ++ base) = false ->
  documentService.derive (dir ++ "/" ++ base ++ ".pdf")
  = documentService.Send base.
Proof.
  intros Hdne Hbne Hclean Hddot Hbdot Hsep Hocc. unfold sepfree in Hsep.
  apply negb_true_iff in Hsep.
  unfold documentService.derive.
  assert (Hkey : dir ++ "/" ++ base ++ ".pdf" = (dir ++ "/" ++ base) ++ ".pdf").
  { rewrite string_append_assoc. reflexivity. }
  assert (Hext : filepath.Ext (dir ++ "/" ++ base ++ ".pdf") = ".pdf")
    by (rewrite Hkey; unfold filepath.Ext; rewrite ext_scan_pdf_suffix;
        reflexivity).
  rewrite Hext. change (String.eqb ".pdf" ".pdf") with true. cbn [negb].
  assert (Hname : strings.ReplaceAll (dir ++ "/" ++ base ++ ".pdf") ".pdf" ""
                  = dir ++ "/" ++ base).
  { rewrite Hkey. apply ReplaceAll_extension.
    rewrite !dotfree_append, Hddot, Hbdot. reflexivity. }
  rewrite Hname.
  assert (Hdir : filepath.Dir (dir ++ "/" ++ base ++ ".pdf") = dir).
  { unfold filepath.Dir. rewrite upto_last_separator_directory;
      [exact Hclean |].
    rewrite has_separator_append, Hsep. reflexivity. }
  rewrite Hdir, (ReplaceAll_leading dir "" ("/" ++ base) Hdne).
  rewrite (replace_from_absent dir "" ("/" ++ base) Hdne Hocc).
  reflexivity.
Qed.

Lemma derive_key_in_directory_witness :
  documentService.derive "books/go/notes.pdf" = documentService.Send "notes".
Proof.
  apply (derive_key_in_directory "books/go" "notes");
    try (intros H; discriminate H); reflexivity.
Defined.

Local Open Scope list_scope.

(** ** retryPostgres *)

Section RetryFacts.

Variable Conn : Type.
Variable callback : nat -> error + Conn.

Lemma retry_loop_first_success (k : nat) :
  forall (n i : nat) (attempts sleep : Z) (conn : Conn),
    k < n ->
    (forall j, i <= j < i + k -> exists e, callback j = inl e) ->
    callback (i + k) = inr conn ->
    retry_loop Conn callback n i attempts sleep
    = mkAttempted Conn (inr conn) (S (i + k)) (Z.of_nat (i + k) * sleep).
Proof.
  induction k as [| k IH]; intros n i attempts sleep conn Hlt Hfail Hok.
  - destruct n as [| n]; [lia |]. rewrite Nat.add_0_r in *.
    cbn [retry_loop]. rewrite Hok. reflexivity.
  - destruct n as [| n]; [lia |]. cbn [retry_loop].
    destruct (Hfail i ltac:(lia)) as [e He]. rewrite He.
    replace (i + S k) with (S i + k) in * by lia.
    apply IH; [lia | | exact Hok].
    intros j Hj. apply Hfail. lia.
Qed.


End RetryFacts.

(** [retryPostgres] returns the first connection the callback yields among
    its invocations 0 to [attempts]: when the invocation number k is the
    first to succeed, the callback was invoked k + 1 times and the function
    slept k times before it returned that connection. *)
Theorem retryPostgres_returns_first_connection
  (Conn : Type) (callback : nat -> error + Conn)
  (attempts sleep : Z) (k : nat) (conn : Conn) :
  (Z.of_nat k <= attempts)%Z ->
  (forall j, j < k -> exists e, callback j = inl e) ->
  callback k = inr conn ->
  retryPostgres Conn callback attempts sleep
  = mkAttempted Conn (inr conn) (S k) (Z.of_nat k * sleep).
Proof.
  intros Hk Hfail Hok. unfold retryPostgres.
  apply (retry_loop_first_success Conn callback k _ 0); [lia | | exact Hok].
  intros j Hj. apply Hfail. lia.
Qed.

Lemma retryPostgres_returns_first_connection_witness :
  retryPostgres nat third_time_lucky 3 10000000000
  = mkAttempted nat (inr 2) 3 20000000000%Z.
Proof.
  apply (retryPostgres_returns_first_connection nat third_time_lucky 3
           10000000000 2 2).
  - lia.
  - intros j Hj. exists (errors_New "connection refused").
    destruct j as [| [| j]]; [reflexivity | reflexivity | lia].
  - reflexivity.
Defined.



(** ** The handlers *)

(** [books.Add] on a rejected upload. *)
Lemma books_Add_rejected
  (Match : list Z -> filetype.Type_ * option error)
  (file : File) (book : Document) (w : World) :
  fst (isSupported Match file) = false ->
  books.Add Match file book w
  = ((Some (errors_Wrap ErrInvalidFileType "failed to store data in repo"),
      snd (isSupported Match file), set_Type "book" book), w).
Proof.
  intros Hrej. unfold books.Add, documentService.Add, bind, ret.
  destruct (isSupported Match file) as [supported f1]. cbn [fst snd] in *.
  subst supported. reflexivity.
Qed.

(** An upload that the classifier rejects is answered by [Create] with the
    status 500 and the text "failed to store data in repo: invalid file
    type"; nothing is written to the bucket or to the table. *)
Theorem Create_rejected_upload_is_500
  (Match : list Z -> filetype.Type_ * option error)
  (r : bookHandler.CreateRequest) (w : World)
  (file : File) (Filename displayName0 : string) (more : list string) :
  bookHandler.FormFile r = inr (file, Filename) ->
  bookHandler.FormName r = Some (displayName0 :: more) ->
  fst (isSupported Match file) = false ->
  bookHandler.Create Match r w
  = (Returned
       (response.mkResponse 500
          (response.Text
             ("failed to store data in repo: invalid file type"
                ++ response.newline)%string)),
     w).
Proof.
  intros Hfile Hname Hrej. unfold bookHandler.Create.
  rewrite Hfile, Hname. unfold bind.
  rewrite (books_Add_rejected Match file _ w Hrej). reflexivity.
Qed.

Lemma Create_rejected_upload_is_500_witness :
  response.StatusCode
    match fst (bookHandler.Create filetype.Match_signatures
                 (upload_request short_pdf_upload)
                 (sample_world [] []))
    with
    | Returned resp => resp
    | Panicked _ => response.mkResponse 0 response.Json_null
    end
  = 500.
Proof.
  rewrite (Create_rejected_upload_is_500 filetype.Match_signatures
             (upload_request short_pdf_upload) (sample_world [] [])
             short_pdf_upload "notes.pdf" "Notes" [] eq_refl eq_refl eq_refl).
  reflexivity.
Defined.



(** [PATCH /documents/{id}]: a body that does not decode is answered with
    400 before the identifier is looked at; a request whose type is neither
    empty nor "book" nor "paper" is answered with 500 "Server Error"; in
    both cases nothing is written. *)
Theorem handler_UpdateFields_rejections
  (id : string) (req : Document) (vars_id : option string) (e : error)
  (w : World) :
  documentHandler.UpdateFields (inl e) vars_id w
  = (response.MakeError 400 "document" "Bad Request" "updateFields", w)
  /\ (Type_ req <> "" -> Type_ req <> "book" -> Type_ req <> "paper" ->
      documentHandler.UpdateFields (inr req) (Some id) w
      = (response.MakeError 500 "document" "Server Error" "updateFields", w)).
Proof.
  split; [reflexivity |].
  intros Hne Hbook Hpaper.
  apply String.eqb_neq in Hne, Hbook, Hpaper.
  unfold documentHandler.UpdateFields, documentService.UpdateFields, bind.
  rewrite repo_FindByID_returns.
  unfold documentService.merge. rewrite Hne, Hbook, Hpaper. reflexivity.
Qed.

Lemma handler_UpdateFields_rejections_witness :
  documentHandler.UpdateFields
    (inr (mkDocument "" "" "" "" "magazine" "" [] zeroTime None))
    (Some "id-1") (sample_world [notes_row] [])
  = (response.MakeError 500 "document" "Server Error" "updateFields",
     sample_world [notes_row] []).
Proof.
  apply (proj2 (handler_UpdateFields_rejections "id-1"
                  (mkDocument "" "" "" "" "magazine" "" [] zeroTime None)
                  None (errors_New "unexpected end of JSON input")
                  (sample_world [notes_row] [])));
    intros H; discriminate H.
Defined.

(** ** Paths with a row already *)

(** The rows stored under a path. *)
Lemma upsert_loop_keeps_stored_path (input : list Document) (p : string) :
  forall (count : nat) (w : World),
    path_stored (db w) p = true ->
    filter (fun r => String.eqb (col_path r) p)
      (documents_rows (db (snd (database.upsert_loop input count w))))
    = filter (fun r => String.eqb (col_path r) p) (documents_rows (db w)).
Proof.
  induction input as [| doc rest IH]; intros count w Hp; [reflexivity |].
  rewrite upsert_loop_cons.
  destruct (path_stored (db w) (Path doc)) eqn:Hknown; [apply IH, Hp |].
  destruct (Insert_cases doc w)
    as [(He & Hd & _) | (He & Hf & Hd & _ & _)]; rewrite He.
  - cbn [snd]. rewrite Hd. reflexivity.
  - destruct (Insert_effect doc w) as (_ & Hmono & _).
    rewrite (IH (S count) _ (Hmono p Hp)), Hd.
    cbn [documents_rows]. rewrite filter_app.
    cbn [filter database.inserted_row col_path].
    destruct (String.eqb_spec (Path doc) p) as [E | _];
      [congruence | apply app_nil_r].
Qed.

(** [Scan] adds no row for a path that has one: whatever the outcome of the
    run, the rows under a path that was stored before it are exactly the
    rows that were there. *)
Theorem Scan_adds_nothing_for_stored_path (w : World) (p : string) :
  path_stored (db w) p = true ->
  filter (fun r => String.eqb (col_path r) p)
    (documents_rows (db (snd (documentService.Scan w))))
  = filter (fun r => String.eqb (col_path r) p) (documents_rows (db w)).
Proof.
  intros Hp. destruct (Scan_state w) as (Hdb & _). rewrite Hdb.
  destruct (produce_frame (fst (common.List_ w)) w) as (Hpd & _ & _).
  rewrite upsert_loop_keeps_stored_path by (rewrite Hpd; exact Hp).
  rewrite Hpd. reflexivity.
Qed.

Lemma Scan_adds_nothing_for_stored_path_witness :
  filter (fun r => String.eqb (col_path r) "go.pdf")
    (documents_rows
       (db (snd (documentService.Scan
                   (sample_world [stored_row] ["go.pdf"; "new.pdf"])))))
  = [stored_row].
Proof.
  rewrite (Scan_adds_nothing_for_stored_path
             (sample_world [stored_row] ["go.pdf"; "new.pdf"]) "go.pdf"
             eq_refl).
  reflexivity.
Defined.


